(** * Feedback ingestion and enrichment pipeline (server.js)

    A shallow embedding of the Express server of the feedback application:
    the retry helper around the text-generation call
    ([generateContentWithRetry]), and the three route handlers
    GET / POST / PATCH [/api/feedback] over the two storage backends
    (the process-local array [feedbackMemory] and the Mongoose model
    [Feedback]).

    Conventions of the embedding.
    - JSON and JavaScript values are the inductive [JValue]; an object is a
      finite map from property names to values, so that the object spread
      [{...a, ...b}] is the left-biased union [b ∪ a].
    - JavaScript numbers are carried as integers: the only numbers the
      server computes with are [Date.now()] timestamps and the backoff
      delays, which are integers. The one exception is the [rating] of the
      client's records, a rational, since the rating chart tells a rating
      such as 4.5 from an integer one.
    - An [async] function is a function that returns its result together
      with the list of the external events it performed, in order: each
      call of the provider and each [setTimeout] suspension.
    - [uuidv4()] and [Date.now()] are inputs of the POST handler.
    - The client side (types.ts, storageService.ts and the two dashboards)
      is in the module [Client]: its functions take the outcome of the
      [fetch] they await as an argument. *)

From Stdlib Require Import ZArith QArith Lia Sorted Permutation.
From stdpp Require Import gmap strings list fin_maps pretty.

#[local] Set Warnings "-register-all".
#[local] Open Scope Z_scope.

(** ** JavaScript values *)

Inductive JValue : Type :=
| JUndefined
| JNull
| JBool (b : bool)
| JNum (n : Z)
| JStr (s : string)
| JArr (l : list JValue)
| JObj (o : gmap string JValue).

(** Reading a property of an object: [o.k], [undefined] when absent. *)
Definition get (o : gmap string JValue) (k : string) : JValue :=
  default JUndefined (o !! k).

(** ToBoolean: [undefined], [null], [false], [0] and the empty string are
    falsy, every object and array is truthy. *)
Definition truthy (v : JValue) : bool :=
  match v with
  | JUndefined | JNull => false
  | JBool b => b
  | JNum n => negb (n =? 0)
  | JStr s => negb (String.eqb s "")
  | JArr _ | JObj _ => true
  end.

(** [hay.includes(needle)] *)
Fixpoint includes (needle hay : string) : bool :=
  String.prefix needle hay ||
  match hay with
  | EmptyString => false
  | String _ rest => includes needle rest
  end.

(** ** The provider and what it can answer *)

(** The error object a failed provider call rejects with: [error.status]
    and [error.message], either of which may be undefined. *)
Record ApiError : Type := mkApiError {
  err_status : option Z;
  err_message : option string
}.

(** The response object of the SDK; [response.text] is a string or
    undefined. *)
Record GenResponse : Type := mkGenResponse {
  text : option string
}.

(** A settled promise. *)
Inductive Settled (A : Type) : Type :=
| Resolved (a : A)
| Rejected (e : ApiError).
Arguments Resolved {A} a.
Arguments Rejected {A} e.

(** The prompt is the fixed template of the POST handler with the two
    values [rating] and [reviewText] spliced in; it is carried as the pair
    of spliced values. *)
Record Prompt : Type := mkPrompt {
  prompt_rating : JValue;
  prompt_reviewText : JValue
}.

(** [genAI.models.generateContent]: the answer to the call made at loop
    index [i] of one run of the retry helper, for a given prompt. *)
Definition Provider : Type := Prompt -> nat -> Settled GenResponse.

(** External events of a run, in program order. *)
Inductive Event : Type :=
| Invoke (attempt : nat)
| Sleep (ms : Z).

Definition is_invoke (e : Event) : bool :=
  match e with Invoke _ => true | Sleep _ => false end.

Definition invocations (tr : list Event) : nat :=
  length (filter (fun e => is_invoke e = true) tr).

Fixpoint suspended (tr : list Event) : Z :=
  match tr with
  | [] => 0
  | Invoke _ :: tr' => suspended tr'
  | Sleep ms :: tr' => ms + suspended tr'
  end.

(** What [generateContentWithRetry] can return: [null] (no client), the
    response, or [undefined] when the loop body never ran. *)
Inductive ExecValue : Type :=
| ENull
| EUndefined
| EResponse (r : GenResponse).

(** ** Retry helper *)

Definition status_is (e : ApiError) (code : Z) : bool :=
  match err_status e with
  | Some s => s =? code
  | None => false
  end.

(** [error.status === 429 || error.status === 503 ||
     error.message?.includes('429')] *)
Definition isTransient (e : ApiError) : bool :=
  status_is e 429 || status_is e 503 ||
  match err_message e with
  | Some m => includes "429" m
  | None => false
  end.

Definition after {A : Type} (evs : list Event) (r : A * list Event)
  : A * list Event :=
  (fst r, evs ++ snd r).

Section RetryExecutor.

(** [genAI] is [null] when [process.env.API_KEY] is not set. *)
Variable genAI : option Provider.

(** The [for (let i = 0; i < retries; i++)] loop; [fuel] is the number
    of iterations still to run, [retries - i]. *)
Fixpoint attempts (provider : Provider) (prompt : Prompt)
    (retries : nat) (initialDelay : Z) (fuel i : nat)
  : Settled ExecValue * list Event :=
  match fuel with
  | O => (Resolved EUndefined, [])
  | S fuel' =>
    match provider prompt i with
    | Resolved response => (Resolved (EResponse response), [Invoke i])
    | Rejected error =>
      if isTransient error && (Z.of_nat i <? Z.of_nat retries - 1) then
        let delay := initialDelay * 2 ^ Z.of_nat i in
        after [Invoke i; Sleep delay]
              (attempts provider prompt retries initialDelay fuel' (S i))
      else if Z.of_nat i =? Z.of_nat retries - 1 then
        (Rejected error, [Invoke i])
      else
        after [Invoke i]
              (attempts provider prompt retries initialDelay fuel' (S i))
    end
  end.

Definition generateContentWithRetry (prompt : Prompt)
    (retries : nat) (initialDelay : Z)
  : Settled ExecValue * list Event :=
  match genAI with
  | None => (Resolved ENull, [])
  | Some provider => attempts provider prompt retries initialDelay retries 0
  end.

End RetryExecutor.

(** Default arguments of [generateContentWithRetry]. *)
Definition default_retries : nat := 3.
Definition default_initialDelay : Z := 1000.

(** ** Requests, responses and the stored records *)

Abbreviation Obj := (gmap string JValue).

(** [req.body] after [express.json()]: a parsed JSON object or array, or
    undefined when the middleware did not produce a body. *)
Inductive ReqBody : Type :=
| BodyUndefined
| BodyObject (o : Obj)
| BodyArray (l : list JValue).

(** The own enumerable properties of the body, as the object spread
    [{...req.body}] copies them: those of an object, the indices of an
    array, none of [undefined]. *)
Definition own_enumerable (b : ReqBody) : Obj :=
  match b with
  | BodyUndefined => ∅
  | BodyObject o => o
  | BodyArray l => list_to_map (imap (fun i v => (pretty i, v)) l)
  end.

(** [res.status(s).json(v)]: the status and the value handed to [json]. *)
Record Response : Type := mkResponse {
  status : Z;
  body : JValue
}.

(** [{ message: error.message }] *)
Definition message_body (msg : string) : JValue :=
  JObj {[ "message" := JStr msg ]}.

(** The object assigned when the provider gave no usable analysis
    (server.js, "Fallback if AI failed"). *)
Definition FALLBACK : Obj :=
  {[ "userResponse" :=
       JStr "Thank you for your feedback! We appreciate you taking the time to share your thoughts.";
     "summary" := JStr "AI analysis unavailable at this moment.";
     "recommendedActions" :=
       JArr [JStr "Check API Quota/Connection"; JStr "Review logs manually"];
     "sentiment" := JStr "Neutral" ]}.

(** The object literal [newSubmission] of the POST handler. *)
Definition newSubmission (uuid : string) (rating reviewText : JValue)
    (now : Z) (aiAnalysis : JValue) : Obj :=
  {[ "id" := JStr uuid;
     "rating" := rating;
     "reviewText" := reviewText;
     "timestamp" := JNum now;
     "aiAnalysis" := aiAnalysis;
     "helpfulResponse" := JNull ]}.

(** [v === s] for a string [s]: strict equality holds only for an equal
    string. *)
Definition strict_eq_string (v : JValue) (s : string) : bool :=
  match v with
  | JStr t => String.eqb t s
  | _ => false
  end.

(** [feedbackMemory.findIndex(f => f.id === id)]; [None] stands for -1. *)
Definition findIndex (id : string) (l : list Obj) : option nat :=
  fst <$> list_find (fun f => strict_eq_string (get f "id") id = true) l.

(** The comparator [(a, b) => b.timestamp - a.timestamp]. Records made by
    the POST handler carry number timestamps, for which the result is the
    difference. [None] stands for a result that is not a number. The model
    is exact for number timestamps only: for the other values a PATCH may
    have stored under [timestamp], the subtraction converts them to a
    number first (the text "1000" counts as 1000, [null] as 0) or throws,
    which is not modelled; [None] is given for them. The statements about
    the order of a listing assume number timestamps. *)
Definition compare_timestamp_desc (a b : Obj) : option Z :=
  match get b "timestamp", get a "timestamp" with
  | JNum tb, JNum ta => Some (tb - ta)
  | _, _ => None
  end.

(** [Array.prototype.sort] with that comparator: a stable sort; a
    comparator result that is not a number counts as 0. [x] stays in front
    of [y] unless the comparator is positive. *)
Definition stays_before (x y : Obj) : bool :=
  match compare_timestamp_desc x y with
  | Some d => d <=? 0
  | None => true
  end.

Fixpoint sort_insert (x : Obj) (l : list Obj) : list Obj :=
  match l with
  | [] => [x]
  | y :: l' => if stays_before x y then x :: y :: l' else y :: sort_insert x l'
  end.

Fixpoint sort_timestamp_desc (l : list Obj) : list Obj :=
  match l with
  | [] => []
  | x :: l' => sort_insert x (sort_timestamp_desc l')
  end.

(** ** The durable backend *)

(** The outcome of awaiting a Mongoose call. *)
Inductive DbResult (A : Type) : Type :=
| DbOk (a : A)
| DbError (message : string).
Arguments DbOk {A} a.
Arguments DbError {A} message.

(** The three calls the handlers make on the Mongoose model [Feedback],
    over the state of its collection:
    [Feedback.find().sort({ timestamp: -1 })],
    [new Feedback(doc).save()], which yields the saved document, and
    [Feedback.findOneAndUpdate({ id }, { $set: body }, { new: true })],
    which yields the updated document or [null] ([None]). *)
Record DurableBackend : Type := mkDurableBackend {
  Collection : Type;
  Feedback_find_sort : Collection -> DbResult (list Obj);
  Feedback_save : Obj -> Collection -> DbResult (Obj * Collection);
  Feedback_findOneAndUpdate :
    string -> ReqBody -> Collection -> DbResult (option Obj * Collection)
}.

(** Modelled from the spec: the Mongoose model and the database behind it
    are not part of the sources. This double follows the contract of the
    Submission Store: insert stores the record and returns it, listAll
    returns the records ordered by descending timestamp, updatePartial
    sets the supplied fields on the first record with the given id and
    returns the updated record, or a null result for an unknown id. *)
Definition testDouble : DurableBackend :=
  {| Collection := list Obj;
     Feedback_find_sort := fun c => DbOk (sort_timestamp_desc c);
     Feedback_save := fun doc c => DbOk (doc, c ++ [doc]);
     Feedback_findOneAndUpdate := fun id b c =>
       match findIndex id c with
       | Some index =>
         let updated := own_enumerable b ∪ default ∅ (c !! index) in
         DbOk (Some updated, <[index := updated]> c)
       | None => DbOk (None, c)
       end |}.

(** Modelled from the spec: as [testDouble], with one rule added that
    comes from the schema [feedbackSchema] of server.js, which declares
    [recommendedActions: [String]] inside [aiAnalysis]: Mongoose gives an
    array path that is absent from a document the default [[]], so a saved
    [aiAnalysis] object always has [recommendedActions]. The other effects
    of the schema (casts between types, paths outside the schema, [_id]
    and [__v]) are not modelled. *)
Definition with_array_default (doc : Obj) : Obj :=
  match doc !! "aiAnalysis" with
  | Some (JObj analysis) =>
    match analysis !! "recommendedActions" with
    | Some _ => doc
    | None =>
      <[ "aiAnalysis" := JObj (<[ "recommendedActions" := JArr [] ]> analysis) ]>
        doc
    end
  | _ => doc
  end.

Definition schemaDouble : DurableBackend :=
  {| Collection := list Obj;
     Feedback_find_sort := fun c => DbOk (sort_timestamp_desc c);
     Feedback_save := fun doc c =>
       DbOk (with_array_default doc, c ++ [with_array_default doc]);
     Feedback_findOneAndUpdate := fun id b c =>
       match findIndex id c with
       | Some index =>
         let updated := own_enumerable b ∪ default ∅ (c !! index) in
         DbOk (Some updated, <[index := updated]> c)
       | None => DbOk (None, c)
       end |}.

(** ** The server *)

(** Process state: the flag [useMongo], the array [feedbackMemory], and
    the collection of the durable backend. *)
Record Server (B : DurableBackend) : Type := mkServer {
  useMongo : bool;
  feedbackMemory : list Obj;
  collection : Collection B
}.
Arguments mkServer {B} _ _ _.
Arguments useMongo {B} _.
Arguments feedbackMemory {B} _.
Arguments collection {B} _.

(** Whether converting a value of the request body to a string, as the
    template literal of the prompt does with [rating] and [reviewText],
    throws a TypeError. A parsed JSON object that has a property named
    [toString] cannot be converted: that property is not a function, and
    the inherited [valueOf] returns the object itself. Every other object
    converts to a fixed text, a primitive to its text, and an array joins
    the conversions of its elements, so that it throws when one of them
    does. *)
Fixpoint string_conversion_throws (v : JValue) : bool :=
  match v with
  | JObj o =>
    match o !! "toString" with
    | Some _ => true
    | None => false
    end
  | JArr l => existsb string_conversion_throws l
  | _ => false
  end.

(** Whether building the prompt throws. *)
Definition prompt_throws (rating reviewText : JValue) : bool :=
  string_conversion_throws rating || string_conversion_throws reviewText.

Section Handlers.

(** [JSON.parse]; [None] when it throws a SyntaxError. *)
Variable JSON_parse : string -> option JValue.
Variable B : DurableBackend.
Variable genAI : option Provider.

(** The parse step of the POST handler:
    [if (response && response.text) aiAnalysis = JSON.parse(response.text)]
    inside the [try]; [None] when [aiAnalysis] is not assigned, also
    when the call or the parse throws. *)
Definition parsed_analysis (r : Settled ExecValue) : option JValue :=
  match r with
  | Resolved (EResponse response) =>
    match text response with
    | Some t => if String.eqb t "" then None else JSON_parse t
    | None => None
    end
  | Resolved ENull | Resolved EUndefined => None
  | Rejected _ => None
  end.

(** The block [if (!aiAnalysis) { ... }] of the POST handler, from the
    value of [req.body.aiAnalysis] to the value stored. The prompt is
    built inside the [try]: when that throws, the [catch] is entered
    before any call is made, and the fallback is assigned. *)
Definition enrich (rating reviewText aiAnalysis : JValue)
  : JValue * list Event :=
  if truthy aiAnalysis then (aiAnalysis, [])
  else if prompt_throws rating reviewText then (JObj FALLBACK, [])
  else
    let '(r, tr) :=
      generateContentWithRetry genAI (mkPrompt rating reviewText)
        default_retries default_initialDelay in
    let aiAnalysis' := default aiAnalysis (parsed_analysis r) in
    (if truthy aiAnalysis' then aiAnalysis' else JObj FALLBACK, tr).

(** GET /api/feedback. The in-memory branch sorts [feedbackMemory] in
    place. *)
Definition get_feedback (st : Server B) : Response * Server B :=
  if useMongo st then
    match Feedback_find_sort B (collection st) with
    | DbOk feedback => (mkResponse 200 (JArr (JObj <$> feedback)), st)
    | DbError msg => (mkResponse 500 (message_body msg), st)
    end
  else
    let sorted := sort_timestamp_desc (feedbackMemory st) in
    (mkResponse 200 (JArr (JObj <$> sorted)),
     mkServer (useMongo st) sorted (collection st)).

(** What V8 reports when [req.body] is undefined at the destructuring
    [const { rating, reviewText } = req.body]. *)
Definition destructure_error : string :=
  "Cannot destructure property 'rating' of 'req.body' as it is undefined.".

(** POST /api/feedback, with the values [uuidv4()] and [Date.now()]
    return for this request. *)
Definition post_feedback (st : Server B) (b : ReqBody)
    (uuid : string) (now : Z) : Response * Server B * list Event :=
  match b with
  | BodyUndefined => (mkResponse 400 (message_body destructure_error), st, [])
  | _ =>
    let rating := get (own_enumerable b) "rating" in
    let reviewText := get (own_enumerable b) "reviewText" in
    let '(aiAnalysis, tr) :=
      enrich rating reviewText (get (own_enumerable b) "aiAnalysis") in
    let submission := newSubmission uuid rating reviewText now aiAnalysis in
    if useMongo st then
      match Feedback_save B submission (collection st) with
      | DbOk (newFeedback, c) =>
        (mkResponse 201 (JObj newFeedback),
         mkServer (useMongo st) (feedbackMemory st) c, tr)
      | DbError msg => (mkResponse 400 (message_body msg), st, tr)
      end
    else
      (mkResponse 201 (JObj submission),
       mkServer (useMongo st) (feedbackMemory st ++ [submission])
                (collection st), tr)
  end.

(** PATCH /api/feedback/:id *)
Definition patch_feedback (st : Server B) (id : string) (b : ReqBody)
  : Response * Server B :=
  if useMongo st then
    match Feedback_findOneAndUpdate B id b (collection st) with
    | DbOk (updatedFeedback, c) =>
      (mkResponse 200 (from_option JObj JNull updatedFeedback),
       mkServer (useMongo st) (feedbackMemory st) c)
    | DbError msg => (mkResponse 400 (message_body msg), st)
    end
  else
    match findIndex id (feedbackMemory st) with
    | Some index =>
      let merged :=
        own_enumerable b ∪ default ∅ (feedbackMemory st !! index) in
      (mkResponse 200 (JObj merged),
       mkServer (useMongo st) (<[index := merged]> (feedbackMemory st))
                (collection st))
    | None => (mkResponse 404 (message_body "Not found"), st)
    end.

End Handlers.

(** ** What the invariants speak about *)



(** The records of the backend in use, for a server over the test
    double. *)
Definition active_records (st : Server testDouble) : list Obj :=
  if useMongo st then collection st else feedbackMemory st.

(** The timestamp of a record made by the POST handler. *)
Definition timestamp_of (f : Obj) : Z :=
  match get f "timestamp" with
  | JNum n => n
  | _ => 0
  end.

Definition has_number_timestamp (f : Obj) : bool :=
  match get f "timestamp" with
  | JNum _ => true
  | _ => false
  end.

(** [a] may come before [b] in a listing by descending timestamp. *)
Definition newer_or_same (a b : Obj) : Prop :=
  timestamp_of b <= timestamp_of a.

(** ** Provider stubs and sample data used in the examples *)

Definition fatal_error : ApiError :=
  mkApiError (Some 500) (Some "Internal Server Error").

Definition busy_error : ApiError :=
  mkApiError (Some 429) (Some "Too Many Requests").

Definition unavailable_error : ApiError :=
  mkApiError (Some 503) (Some "Service Unavailable").

(** A response whose text is the JSON text of the empty object. *)
Definition sample_response : GenResponse := mkGenResponse (Some "{}").

Definition stub_always_fatal : Provider :=
  fun _ _ => Rejected fatal_error.

Definition stub_fatal_then_success : Provider :=
  fun _ i =>
    match i with
    | O => Rejected fatal_error
    | S _ => Resolved sample_response
    end.

(** Busy at the first call, a fatal error at every later one. *)
Definition stub_transient_then_fatal : Provider :=
  fun _ i =>
    match i with
    | O => Rejected busy_error
    | S _ => Rejected fatal_error
    end.

Definition stub_two_transient_then_success : Provider :=
  fun _ i =>
    match i with
    | O => Rejected busy_error
    | S O => Rejected unavailable_error
    | S (S _) => Resolved sample_response
    end.

(** [JSON.parse] on the two texts the examples use. *)
Definition parse_stub (s : string) : option JValue :=
  if String.eqb s "{}" then Some (JObj ∅)
  else if String.eqb s "null" then Some JNull
  else None.

Definition sample_prompt : Prompt := mkPrompt (JNum 5) (JStr "Great service!").

(** The request body [{ rating: 5, reviewText: "Great service!" }]. *)
Definition sample_body : Obj :=
  {[ "rating" := JNum 5; "reviewText" := JStr "Great service!" ]}.

(** The request body
    [{ rating: 5, reviewText: "Great service!", aiAnalysis: {} }]. *)
Definition body_with_empty_analysis : Obj :=
  <[ "aiAnalysis" := JObj ∅ ]> sample_body.

(** The PATCH body [{ helpfulResponse: true }]. *)
Definition helpful_vote : Obj := {[ "helpfulResponse" := JBool true ]}.

Definition stored_sample : Obj :=
  newSubmission "u-1" (JNum 5) (JStr "Great service!") 1000 (JObj FALLBACK).

(** A server over the test double that holds [stored_sample] in the
    backend in use. *)
Definition server_with_sample (mongo : bool) : Server testDouble :=
  if mongo then @mkServer testDouble true [] [stored_sample]
  else @mkServer testDouble false [stored_sample] ([] : list Obj).

(** A server over the test double with nothing stored yet. *)
Definition empty_server (mongo : bool) : Server testDouble :=
  @mkServer testDouble mongo [] ([] : list Obj).

(** ** The router *)

(** A request to one of the three routes. For a POST it carries the client
    [genAI] as it behaves while this request is served, and the values
    [uuidv4()] and [Date.now()] return for it. *)
Inductive Request : Type :=
| GET_feedback
| POST_feedback (genAI : option Provider) (b : ReqBody) (uuid : string)
    (now : Z)
| PATCH_feedback (id : string) (b : ReqBody).

(** [app.get], [app.post] and [app.patch]: the handler of the route. *)
Definition handle (JSON_parse : string -> option JValue)
    (st : Server testDouble) (req : Request) : Response * Server testDouble :=
  match req with
  | GET_feedback => get_feedback testDouble st
  | POST_feedback genAI b uuid now =>
    fst (post_feedback JSON_parse testDouble genAI st b uuid now)
  | PATCH_feedback id b => patch_feedback testDouble st id b
  end.

(** Requests served one after the other, in the order in which they reach
    the store. *)
Fixpoint serve (JSON_parse : string -> option JValue)
    (st : Server testDouble) (reqs : list Request)
  : list Response * Server testDouble :=
  match reqs with
  | [] => ([], st)
  | req :: reqs' =>
    let r := handle JSON_parse st req in
    let rest := serve JSON_parse (snd r) reqs' in
    (fst r :: fst rest, snd rest)
  end.

(** The number of responses with status 201. *)
Definition created (rs : list Response) : nat :=
  length (filter (fun r => status r = 201) rs).

(** A request that cannot change what a stored record holds under the
    name [k]: every request but a PATCH whose body supplies [k]. *)
Definition leaves_field (k : string) (req : Request) : bool :=
  match req with
  | PATCH_feedback _ b =>
    match own_enumerable b !! k with
    | None => true
    | Some _ => false
    end
  | _ => true
  end.

Definition is_number (v : JValue) : bool :=
  match v with
  | JNum _ => true
  | _ => false
  end.

(** The ids under which POST requests with a body store their
    submissions. *)
Fixpoint posted_ids (reqs : list Request) : list string :=
  match reqs with
  | [] => []
  | POST_feedback _ BodyUndefined _ _ :: reqs' => posted_ids reqs'
  | POST_feedback _ _ uuid _ :: reqs' => uuid :: posted_ids reqs'
  | _ :: reqs' => posted_ids reqs'
  end.

(** The values the records hold under [id]. *)
Definition record_ids (l : list Obj) : list JValue :=
  (fun f => get f "id") <$> l.

(** The records of the backend that is not in use. *)
Definition idle_records (st : Server testDouble) : list Obj :=
  if useMongo st then feedbackMemory st else collection st.

(** A provider that is busy whenever it is called. *)
Definition stub_always_busy : Provider :=
  fun _ _ => Rejected busy_error.

(** An error with a status that is not transient, whose message happens to
    hold the digits 429. *)
Definition misread_error : ApiError :=
  mkApiError (Some 500) (Some "Internal error (request 14295)").


(** A provider whose first call fails with [misread_error] and whose later
    calls answer. *)
Definition stub_misread_then_success : Provider :=
  fun _ i =>
    match i with
    | O => Rejected misread_error
    | S _ => Resolved sample_response
    end.

(** A newer record, and a record of the same instant as [stored_sample]. *)
Definition newer_sample : Obj :=
  newSubmission "u-2" (JNum 4) (JStr "Good") 2000 (JObj FALLBACK).

Definition same_instant_sample : Obj :=
  newSubmission "u-3" (JNum 3) (JStr "Okay") 1000 (JObj FALLBACK).

(** An in-memory server that holds the three records, the newest in the
    middle. *)
Definition server_with_three : Server testDouble :=
  @mkServer testDouble false
    [stored_sample; newer_sample; same_instant_sample] ([] : list Obj).


(** A session: two submissions, a vote on the first, a PATCH on an id
    that does not exist, a request without a body, and a listing. *)
Definition sample_session : list Request :=
  [ POST_feedback None (BodyObject sample_body) "u-1" 1000;
    POST_feedback (Some stub_always_busy) (BodyObject sample_body) "u-2" 2000;
    PATCH_feedback "u-1" (BodyObject helpful_vote);
    PATCH_feedback "nonexistent" (BodyObject helpful_vote);
    POST_feedback None BodyUndefined "u-3" 3000;
    GET_feedback ].

(** ** The client: types.ts, storageService.ts and the dashboards *)

Module Client.

(** [AiAnalysisResult] and [FeedbackSubmission] of types.ts. At run time
    [sentiment] is whatever string the server sent, and [rating] whatever
    number: it is carried as a rational, since the server stores a rating
    such as 4.5 as it comes. [helpfulResponse] is [None] when it is null
    or undefined. *)
Record AiAnalysisResult : Type := mkAiAnalysisResult {
  userResponse : string;
  summary : string;
  recommendedActions : list string;
  sentiment : string
}.

Record FeedbackSubmission : Type := mkFeedbackSubmission {
  id : string;
  rating : Q;
  reviewText : string;
  timestamp : Z;
  aiAnalysis : AiAnalysisResult;
  helpfulResponse : option bool
}.

(** What awaiting [fetch] and, where the caller reads it,
    [response.json()] comes to: an error thrown by either, or a response
    with its [ok] flag and the decoded data. *)
Inductive Fetched (A : Type) : Type :=
| FetchFailed (e : ApiError)
| FetchAnswered (ok : bool) (data : A).
Arguments FetchFailed {A} e.
Arguments FetchAnswered {A} ok data.

(** [new Error(msg)] *)
Definition Error (msg : string) : ApiError := mkApiError None (Some msg).

(** [response.ok]: the status is in the range 200 to 299. *)
Definition status_ok (s : Z) : bool := (200 <=? s) && (s <=? 299).

(** The response of the server as the client's [fetch] sees it. *)
Definition over_http (r : Response) : Fetched JValue :=
  FetchAnswered (status_ok (status r)) (body r).

(** storageService.ts, from the outcome of the [fetch]. *)
Definition saveSubmission {A : Type} (f : Fetched A) : Settled A :=
  match f with
  | FetchFailed e => Rejected e
  | FetchAnswered ok data =>
    if ok then Resolved data else Rejected (Error "Failed to save submission")
  end.

Definition updateSubmission {A : Type} (f : Fetched A) : Settled unit :=
  match f with
  | FetchFailed e => Rejected e
  | FetchAnswered ok _ =>
    if ok then Resolved tt else Rejected (Error "Failed to update submission")
  end.

Definition getSubmissions {A : Type} (f : Fetched (list A)) : list A :=
  match f with
  | FetchFailed _ => []
  | FetchAnswered ok data => if ok then data else []
  end.

(** [handleHelpfulFeedback] of the user dashboard: the new value of
    [helpfulStatus] ([Some true] for 'yes', [Some false] for 'no'), given
    how the PATCH request with the id of [submittedData] and the body
    [{ helpfulResponse: isHelpful }] is answered. *)
Definition handleHelpfulFeedback
    (patch : string -> ReqBody -> Fetched JValue)
    (submittedData : option FeedbackSubmission) (helpfulStatus : option bool)
    (isHelpful : bool) : option bool :=
  match submittedData with
  | None => helpfulStatus
  | Some data =>
    match updateSubmission
            (patch (id data)
               (BodyObject {[ "helpfulResponse" := JBool isHelpful ]})) with
    | Resolved _ => Some isHelpful
    | Rejected _ => helpfulStatus
    end
  end.

(** [data.sort((a, b) => b.timestamp - a.timestamp)] of [fetchData]. *)
Fixpoint insert_newest (x : FeedbackSubmission) (l : list FeedbackSubmission)
  : list FeedbackSubmission :=
  match l with
  | [] => [x]
  | y :: l' =>
    if timestamp y - timestamp x <=? 0 then x :: y :: l'
    else y :: insert_newest x l'
  end.

Fixpoint newest_first (l : list FeedbackSubmission) : list FeedbackSubmission :=
  match l with
  | [] => []
  | x :: l' => insert_newest x (newest_first l')
  end.

(** The part of the admin dashboard that [fetchData] updates: the state
    [submissions] and the refs [isFirstLoad] and [prevCountRef]. *)
Record Dashboard : Type := mkDashboard {
  submissions : list FeedbackSubmission;
  isFirstLoad : bool;
  prevCountRef : nat
}.

(** [fetchData], from the outcome of the [fetch] in [getSubmissions]: the
    new dashboard, and whether the notification "New feedback received!"
    is raised. *)
Definition fetchData (d : Dashboard) (f : Fetched (list FeedbackSubmission))
  : Dashboard * bool :=
  let data := newest_first (getSubmissions f) in
  let notify :=
    if isFirstLoad d then false
    else bool_decide (prevCountRef d < length data)%nat in
  (mkDashboard data false (length data), notify).

(** [calculateStats]. The field [averageRating], a floating-point quotient
    rounded to one decimal, is not modelled; the counts are. *)

(** The integer that a number is, if it is one. *)
Definition whole (q : Q) : option Z :=
  if (Qnum q mod Z.pos (Qden q) =? 0)%Z
  then Some (Qnum q / Z.pos (Qden q))%Z
  else None.

(** The body of the [forEach] for the array [ratingsCount]. For a rating
    in the range that is not an integer, such as 4.5, the increment makes
    a property of that name on the array and changes none of its
    elements. *)
Definition count_rating (ratingsCount : list nat) (s : FeedbackSubmission)
  : list nat :=
  if Qle_bool (inject_Z 1) (rating s) && Qle_bool (rating s) (inject_Z 5)
  then
    match whole (rating s) with
    | Some r => alter S (Z.to_nat r) ratingsCount
    | None => ratingsCount
    end
  else ratingsCount.

(** The bar of the rating chart that a submission is counted in, if any:
    the element of [ratingsCount] that [count_rating] increments. *)
Definition bar (s : FeedbackSubmission) : option nat :=
  if Qle_bool (inject_Z 1) (rating s) && Qle_bool (rating s) (inject_Z 5)
  then Z.to_nat <$> whole (rating s)
  else None.

Definition ratingsCount (data : list FeedbackSubmission) : list nat :=
  fold_left count_rating data [0; 0; 0; 0; 0; 0]%nat.

(** The body of the [forEach] for the object [sentiments]. The test
    [sent in sentiments] also holds for the names an object inherits, such
    as [toString]; the increment then makes a property of that name and
    leaves the three counters as they are. *)
Definition count_sentiment (sentiments : gmap string nat)
    (s : FeedbackSubmission) : gmap string nat :=
  match sentiments !! sentiment (aiAnalysis s) with
  | Some _ => alter S (sentiment (aiAnalysis s)) sentiments
  | None => sentiments
  end.

Definition sentiments (data : list FeedbackSubmission) : gmap string nat :=
  fold_left count_sentiment data
    {[ "Positive" := 0%nat; "Neutral" := 0%nat; "Negative" := 0%nat ]}.

(** [ratingData]: the entries [{ rating: r, count: ratingsCount[r] }]. *)
Definition ratingData (data : list FeedbackSubmission) : list (Z * nat) :=
  (fun r => (r, default 0%nat (ratingsCount data !! Z.to_nat r)))
    <$> [1; 2; 3; 4; 5].

(** [sentimentData]: the entries [{ name, value, color }]. *)
Definition sentimentData (data : list FeedbackSubmission)
  : list (string * nat * string) :=
  [ ("Positive", default 0%nat (sentiments data !! "Positive"), "#22c55e");
    ("Neutral", default 0%nat (sentiments data !! "Neutral"), "#94a3b8");
    ("Negative", default 0%nat (sentiments data !! "Negative"), "#ef4444") ].

(** [FeedbackStats] of types.ts, without [averageRating]. *)
Record FeedbackStats : Type := mkFeedbackStats {
  totalReviews : nat;
  sentimentDistribution : list (string * nat * string);
  ratingDistribution : list (Z * nat)
}.

(** [calculateStats]: the value given to [setStats], [None] for null. *)
Definition calculateStats (data : list FeedbackSubmission)
  : option FeedbackStats :=
  match data with
  | [] => None
  | _ =>
    Some (mkFeedbackStats (length data) (sentimentData data) (ratingData data))
  end.

(** [getIntegerTicks(data, key)], from the values [d[key]] of the entries:
    [None] stands for undefined. [Math.max()] of no value is -Infinity,
    for which [Array.from] gives the empty array. *)
Definition getIntegerTicks (values : list nat) : option (list nat) :=
  match values with
  | [] => Some []
  | _ =>
    let max := max_list values in
    if (max <=? 10)%nat then Some (seq 0 (max + 1)) else None
  end.

End Client.

(** The server behind the PATCH request of the client. *)
Definition patch_over_http (st : Server testDouble) (id : string) (b : ReqBody)
  : Client.Fetched JValue :=
  Client.over_http (fst (patch_feedback testDouble st id b)).

(** A submission rated 4.5. *)
Definition half_star_submission : Client.FeedbackSubmission :=
  Client.mkFeedbackSubmission "u-2" (9 # 2) "Nearly perfect" 2000
    (Client.mkAiAnalysisResult "Thank you!" "Nearly perfect."
       ["Keep it up"] "Positive")
    None.

Definition sample_submission : Client.FeedbackSubmission :=
  Client.mkFeedbackSubmission "u-1" (inject_Z 5) "Great service!" 1000
    (Client.mkAiAnalysisResult
       "Thank you for your feedback! We appreciate you taking the time to share your thoughts."
       "AI analysis unavailable at this moment."
       ["Check API Quota/Connection"; "Review logs manually"] "Neutral")
    None.

(** * Properties *)

(** ** Retry helper *)

Lemma invocations_cons_invoke (i : nat) (tr : list Event) :
  invocations (Invoke i :: tr) = S (invocations tr).
Proof. reflexivity. Qed.

Lemma invocations_cons_sleep (ms : Z) (tr : list Event) :
  invocations (Sleep ms :: tr) = invocations tr.
Proof. reflexivity. Qed.

Lemma invocations_invokes (i n : nat) :
  invocations (Invoke <$> seq i n) = n.
Proof.
  revert i. induction n as [|n IH]; intros i; [reflexivity|].
  cbn [seq fmap list_fmap]. rewrite invocations_cons_invoke. f_equal. apply IH.
Qed.

Lemma suspended_invokes (i n : nat) :
  suspended (Invoke <$> seq i n) = 0.
Proof.
  revert i. induction n as [|n IH]; intros i; [reflexivity|].
  cbn [seq fmap list_fmap suspended]. apply IH.
Qed.

Lemma status_transient (e : ApiError) :
  err_status e = Some 429 \/ err_status e = Some 503 -> isTransient e = true.
Proof.
  intros [H|H]; unfold isTransient, status_is; rewrite H; reflexivity.
Qed.

(** Without a client the helper returns [null] at once. *)
Lemma generateContentWithRetry_disabled (prompt : Prompt) (retries : nat)
    (initialDelay : Z) :
  generateContentWithRetry None prompt retries initialDelay
  = (Resolved ENull, []).
Proof. reflexivity. Qed.

Section AttemptsFacts.

Variables (provider : Provider) (prompt : Prompt).
Variables (retries : nat) (initialDelay : Z).


(** When every call is rejected with an error that is not transient, the
    provider is called at each loop index, no suspension takes place, and
    the error of the last call is thrown. *)
Lemma attempts_all_fatal (fuel i : nat) :
  (0 < fuel)%nat -> (i + fuel = retries)%nat ->
  (forall j, exists e, provider prompt j = Rejected e /\ isTransient e = false) ->
  exists e, provider prompt (retries - 1)%nat = Rejected e /\
    attempts provider prompt retries initialDelay fuel i
    = (Rejected e, Invoke <$> seq i fuel).
Proof.
  revert i. induction fuel as [|fuel IH]; intros i Hpos Hsum Hall; [lia|].
  cbn [attempts]. destruct (Hall i) as (e & He & Hfatal).
  rewrite He, Hfatal. cbn [andb].
  destruct (Z.of_nat i =? Z.of_nat retries - 1) eqn:Hlast.
  - apply Z.eqb_eq in Hlast.
    assert (fuel = 0%nat) as -> by lia.
    assert (retries - 1 = i)%nat as -> by lia.
    exists e. split; [exact He | reflexivity].
  - apply Z.eqb_neq in Hlast.
    destruct (IH (S i)) as (e' & He' & Hrun); [lia | lia | exact Hall |].
    exists e'. split; [exact He'|].
    rewrite Hrun. reflexivity.
Qed.

End AttemptsFacts.

(** ** The run as a sequence of attempts *)

Lemma after_nil {A : Type} (r : A * list Event) : after [] r = r.
Proof. destruct r as [a tr]. reflexivity. Qed.

Lemma after_after {A : Type} (evs evs' : list Event) (r : A * list Event) :
  after evs (after evs' r) = after (evs ++ evs') r.
Proof. unfold after. cbn [fst snd]. rewrite (assoc_L (++)). reflexivity. Qed.

Section AttemptsSteps.

Variables (provider : Provider) (prompt : Prompt).
Variables (retries : nat) (initialDelay : Z).

(** The loop, entered with calls to make, starts with a call. *)
Lemma attempts_starts (fuel i : nat) :
  (0 < fuel)%nat ->
  exists rest,
    snd (attempts provider prompt retries initialDelay fuel i)
    = Invoke i :: rest.
Proof.
  intros Hpos. destruct fuel as [|fuel]; [lia|]. cbn [attempts].
  destruct (provider prompt i) as [response|error].
  - exists []. reflexivity.
  - destruct (isTransient error && _).
    + eexists. reflexivity.
    + destruct (_ =? _); eexists; reflexivity.
Qed.

(** When the [k] calls from index [i] on are rejected and more calls are
    allowed, the loop comes to index [i + k], after these [k] calls. *)
Lemma attempts_reaches (k fuel i : nat) :
  (i + fuel = retries)%nat -> (k < fuel)%nat ->
  (forall j, (i <= j < i + k)%nat -> exists e, provider prompt j = Rejected e) ->
  exists before,
    attempts provider prompt retries initialDelay fuel i
    = after before
        (attempts provider prompt retries initialDelay (fuel - k) (i + k)) /\
    invocations before = k.
Proof.
  revert fuel i. induction k as [|k IH]; intros fuel i Hsum Hk Hrejected.
  - exists []. rewrite after_nil, Nat.sub_0_r, Nat.add_0_r.
    split; reflexivity.
  - destruct fuel as [|fuel]; [lia|].
    destruct (Hrejected i) as [e He]; [lia|].
    destruct (IH fuel (S i)) as (before & Hrest & Hcount);
      [lia | lia | intros j Hj; apply Hrejected; lia |].
    replace (S fuel - S k)%nat with (fuel - k)%nat by lia.
    replace (i + S k)%nat with (S i + k)%nat by lia.
    cbn [attempts]. rewrite He.
    destruct (isTransient e && (Z.of_nat i <? Z.of_nat retries - 1)).
    + exists (Invoke i :: Sleep (initialDelay * 2 ^ Z.of_nat i) :: before).
      rewrite Hrest, after_after. split; [reflexivity|].
      rewrite invocations_cons_invoke, invocations_cons_sleep, Hcount.
      reflexivity.
    + destruct (Z.of_nat i =? Z.of_nat retries - 1) eqn:Hlast;
        [apply Z.eqb_eq in Hlast; lia|].
      exists (Invoke i :: before).
      rewrite Hrest, after_after. split; [reflexivity|].
      rewrite invocations_cons_invoke, Hcount. reflexivity.
Qed.

End AttemptsSteps.

(** ** Enrichment *)

Section EnrichFacts.

Variable JSON_parse : string -> option JValue.
Variable genAI : option Provider.
Variables (rating reviewText aiAnalysis : JValue).

(** A truthy [req.body.aiAnalysis] is kept; the provider is not called. *)
Lemma enrich_supplied :
  truthy aiAnalysis = true ->
  enrich JSON_parse genAI rating reviewText aiAnalysis = (aiAnalysis, []).
Proof. intros H. unfold enrich. rewrite H. reflexivity. Qed.

(** When the helper yields nothing that is parsed, the fallback is
    assigned; the events are those of the helper, unless building the
    prompt throws, in which case there is none. *)
Lemma enrich_unusable :
  truthy aiAnalysis = false ->
  parsed_analysis JSON_parse
    (fst (generateContentWithRetry genAI (mkPrompt rating reviewText)
            default_retries default_initialDelay)) = None ->
  enrich JSON_parse genAI rating reviewText aiAnalysis
  = (JObj FALLBACK,
     if prompt_throws rating reviewText then []
     else snd (generateContentWithRetry genAI (mkPrompt rating reviewText)
                 default_retries default_initialDelay)).
Proof.
  intros Hfalsy Hnone. unfold enrich. rewrite Hfalsy.
  destruct (prompt_throws rating reviewText); [reflexivity|].
  destruct (generateContentWithRetry _ _ _ _) as [r tr].
  cbn [fst snd] in *. rewrite Hnone. cbn [default from_option].
  rewrite Hfalsy. reflexivity.
Qed.

(** The value stored is truthy in every case. *)
Lemma enrich_truthy :
  truthy (fst (enrich JSON_parse genAI rating reviewText aiAnalysis)) = true.
Proof.
  unfold enrich. destruct (truthy aiAnalysis) eqn:Hai; [exact Hai|].
  destruct (prompt_throws rating reviewText); [reflexivity|].
  destruct (generateContentWithRetry _ _ _ _) as [r tr].
  destruct (truthy (default aiAnalysis (parsed_analysis JSON_parse r))) eqn:Hp;
    [exact Hp | reflexivity].
Qed.

End EnrichFacts.


(** ** The POST handler on a body that is present *)

Section PostFacts.

Variable JSON_parse : string -> option JValue.
Variable B : DurableBackend.
Variable genAI : option Provider.
Variables (st : Server B) (b : ReqBody) (uuid : string) (now : Z).

Let o := own_enumerable b.
Let enriched :=
  enrich JSON_parse genAI (get o "rating") (get o "reviewText")
    (get o "aiAnalysis").
Let submission :=
  newSubmission uuid (get o "rating") (get o "reviewText") now (fst enriched).

Lemma post_feedback_memory :
  b <> BodyUndefined -> useMongo st = false ->
  post_feedback JSON_parse B genAI st b uuid now
  = (mkResponse 201 (JObj submission),
     mkServer false (feedbackMemory st ++ [submission]) (collection st),
     snd enriched).
Proof.
  intros Hb Hmem. unfold post_feedback.
  subst submission enriched o.
  destruct (enrich _ _ _ _ _) as [ai tr]. rewrite Hmem.
  destruct b; [congruence | reflexivity | reflexivity].
Qed.

Lemma post_feedback_durable :
  b <> BodyUndefined -> useMongo st = true ->
  post_feedback JSON_parse B genAI st b uuid now
  = match Feedback_save B submission (collection st) with
    | DbOk (newFeedback, c) =>
      (mkResponse 201 (JObj newFeedback),
       mkServer true (feedbackMemory st) c, snd enriched)
    | DbError msg => (mkResponse 400 (message_body msg), st, snd enriched)
    end.
Proof.
  intros Hb Hdur. unfold post_feedback.
  subst submission enriched o.
  destruct (enrich _ _ _ _ _) as [ai tr]. rewrite Hdur.
  destruct b; [congruence | reflexivity | reflexivity].
Qed.

End PostFacts.

(** ** Claims about the retry helper and the fallback *)

(** C9. With no credential configured ([genAI] is [null]) the retry helper
    returns [null] on every call, with no call of the provider and no
    backoff suspension; the POST handler then assigns the fixed fallback
    analysis. *)
Theorem no_credential_null_then_fallback
    (JSON_parse : string -> option JValue) (prompt : Prompt)
    (retries : nat) (initialDelay : Z) (rating reviewText aiAnalysis : JValue) :
  truthy aiAnalysis = false ->
  let run := generateContentWithRetry None prompt retries initialDelay in
  fst run = Resolved ENull /\
  invocations (snd run) = 0%nat /\
  suspended (snd run) = 0 /\
  snd run = [] /\
  enrich JSON_parse None rating reviewText aiAnalysis = (JObj FALLBACK, []).
Proof.
  intros Hfalsy run. repeat split.
  rewrite enrich_unusable; [|exact Hfalsy | reflexivity].
  destruct (prompt_throws rating reviewText); reflexivity.
Qed.

Lemma no_credential_null_then_fallback_witness :
  truthy JUndefined = false /\
  enrich parse_stub None (JNum 5) (JStr "Great service!") JUndefined
  = (JObj FALLBACK, []).
Proof.
  split; [reflexivity|].
  apply (no_credential_null_then_fallback parse_stub sample_prompt 3%nat 1000
           (JNum 5) (JStr "Great service!") JUndefined).
  reflexivity.
Defined.

(** C3. A provider that is rejected with status 429 or 503 on the first two
    calls and answers on the third: the helper returns that answer after
    exactly three calls, having waited [initialDelay * 2^0] and then
    [initialDelay * 2^1] in between, which is 1000 ms and 2000 ms, 3000 ms
    in all, at the defaults. *)
Theorem two_transient_failures_then_success
    (provider : Provider) (prompt : Prompt) (initialDelay : Z)
    (e0 e1 : ApiError) (response : GenResponse) :
  provider prompt 0%nat = Rejected e0 ->
  provider prompt 1%nat = Rejected e1 ->
  provider prompt 2%nat = Resolved response ->
  err_status e0 = Some 429 \/ err_status e0 = Some 503 ->
  err_status e1 = Some 429 \/ err_status e1 = Some 503 ->
  let run :=
    generateContentWithRetry (Some provider) prompt default_retries
      initialDelay in
  let run_default :=
    generateContentWithRetry (Some provider) prompt default_retries
      default_initialDelay in
  fst run = Resolved (EResponse response) /\
  snd run = [Invoke 0; Sleep (initialDelay * 2 ^ 0);
             Invoke 1; Sleep (initialDelay * 2 ^ 1); Invoke 2] /\
  invocations (snd run) = 3%nat /\
  suspended (snd run) = initialDelay + 2 * initialDelay /\
  snd run_default = [Invoke 0; Sleep 1000; Invoke 1; Sleep 2000; Invoke 2] /\
  suspended (snd run_default) = 3000.
Proof.
  intros H0 H1 H2 Ht0 Ht1.
  assert (forall d,
    generateContentWithRetry (Some provider) prompt default_retries d
    = (Resolved (EResponse response),
       [Invoke 0; Sleep (d * 2 ^ 0); Invoke 1; Sleep (d * 2 ^ 1); Invoke 2]))
    as Hrun.
  { intros d. unfold generateContentWithRetry, default_retries.
    cbn [attempts]. rewrite H0, (status_transient e0 Ht0).
    cbn [andb Z.of_nat Pos.of_succ_nat Pos.succ Z.sub Z.add Z.opp
         Z.pos_sub Z.ltb Z.compare Pos.pred_double Pos.compare
         Pos.compare_cont].
    rewrite H1, (status_transient e1 Ht1).
    cbn [andb Z.of_nat Pos.of_succ_nat Pos.succ Z.sub Z.add Z.opp
         Z.pos_sub Z.ltb Z.compare Pos.pred_double Pos.compare
         Pos.compare_cont].
    rewrite H2. reflexivity. }
  cbv zeta. rewrite !Hrun. cbn [fst snd].
  repeat split.
  cbn [suspended]. lia.
Qed.

Lemma two_transient_failures_then_success_witness :
  generateContentWithRetry (Some stub_two_transient_then_success)
    sample_prompt default_retries default_initialDelay
  = (Resolved (EResponse sample_response),
     [Invoke 0; Sleep 1000; Invoke 1; Sleep 2000; Invoke 2]).
Proof.
  destruct (two_transient_failures_then_success
              stub_two_transient_then_success sample_prompt
              default_initialDelay busy_error unavailable_error
              sample_response) as (Hres & _ & _ & _ & Htr & _);
    [reflexivity | reflexivity | reflexivity
     | left; reflexivity | right; reflexivity |].
  rewrite (surjective_pairing (generateContentWithRetry _ _ _ _)).
  rewrite Hres, Htr. reflexivity.
Defined.

(** C2, as stated, fails: a provider that is rejected with a fatal error
    (status 500) on every call is called three times at the defaults, not
    once; and when the call after a fatal first one answers, no failure
    reaches the caller at all. *)
Lemma fatal_first_attempt_is_retried :
  stub_always_fatal sample_prompt 0%nat = Rejected fatal_error /\
  stub_fatal_then_success sample_prompt 0%nat = Rejected fatal_error /\
  isTransient fatal_error = false /\
  invocations
    (snd (generateContentWithRetry (Some stub_always_fatal) sample_prompt
            default_retries default_initialDelay)) = 3%nat /\
  invocations
    (snd (generateContentWithRetry (Some stub_always_fatal) sample_prompt
            default_retries default_initialDelay)) <> 1%nat /\
  generateContentWithRetry (Some stub_fatal_then_success) sample_prompt
    default_retries default_initialDelay
  = (Resolved (EResponse sample_response), [Invoke 0; Invoke 1]) /\
  enrich parse_stub (Some stub_fatal_then_success) (JNum 5)
    (JStr "Great service!") JUndefined
  = (JObj ∅, [Invoke 0; Invoke 1]).
Proof.
  repeat split; try reflexivity. vm_compute. discriminate.
Qed.

(** C2, amended. A fatal error on a call that is not the last one is not
    thrown: whatever happened at the calls before it, the call with the
    next index follows with no suspension in between, and the run ends as
    the remaining calls decide. When every call is rejected with a fatal
    error, the provider is called exactly [retries] times (three at the
    defaults, once only for [retries = 1]), nothing is waited for, the
    error of the last call is thrown to the caller, and the POST handler
    assigns the fallback analysis. *)
Theorem fatal_errors_retried_without_backoff
    (JSON_parse : string -> option JValue) (provider : Provider)
    (retries : nat) (initialDelay : Z) (rating reviewText aiAnalysis : JValue) :
  let prompt := mkPrompt rating reviewText in
  let run :=
    generateContentWithRetry (Some provider) prompt retries initialDelay in
  (forall i e,
     (S i < retries)%nat ->
     (forall j, (j < i)%nat -> exists e', provider prompt j = Rejected e') ->
     provider prompt i = Rejected e -> isTransient e = false ->
     exists before rest,
       invocations before = i /\
       snd run = before ++ Invoke i :: Invoke (S i) :: rest /\
       run = after (before ++ [Invoke i])
               (attempts provider prompt retries initialDelay
                  (retries - S i) (S i))) /\
  ((forall j, exists e,
       provider prompt j = Rejected e /\ isTransient e = false) ->
   (0 < retries)%nat ->
   truthy aiAnalysis = false ->
   exists e,
     provider prompt (retries - 1)%nat = Rejected e /\
     run = (Rejected e, Invoke <$> seq 0 retries) /\
     invocations (snd run) = retries /\
     suspended (snd run) = 0 /\
     enrich JSON_parse (Some provider) rating reviewText aiAnalysis
     = (JObj FALLBACK,
        if prompt_throws rating reviewText then []
        else [Invoke 0; Invoke 1; Invoke 2])).
Proof.
  intros prompt run. split.
  - intros i e Hi Hbefore He Hfatal. subst run.
    unfold generateContentWithRetry.
    destruct (attempts_reaches provider prompt retries initialDelay i
                retries 0) as (before & Hrun & Hcount);
      [reflexivity | lia | intros j Hj; apply Hbefore; lia |].
    rewrite Hrun. cbn [Nat.add].
    replace (retries - i)%nat with (S (retries - S i)) by lia.
    cbn [attempts]. rewrite He, Hfatal. cbn [andb].
    destruct (Z.of_nat i =? Z.of_nat retries - 1) eqn:Hlast;
      [apply Z.eqb_eq in Hlast; lia|].
    destruct (attempts_starts provider prompt retries initialDelay
                (retries - S i) (S i)) as [rest Hrest]; [lia|].
    exists before, rest. split; [exact Hcount|].
    rewrite after_after. split; [|reflexivity].
    cbn [after snd]. rewrite Hrest, <- (assoc_L (++)). reflexivity.
  - intros Hall Hpos Hfalsy. subst run.
    destruct (attempts_all_fatal provider prompt retries initialDelay
                retries 0) as (e & He & Hrun); [exact Hpos | reflexivity | exact Hall |].
    exists e. unfold generateContentWithRetry. rewrite Hrun. cbn [snd].
    repeat split.
    + exact He.
    + apply invocations_invokes.
    + apply suspended_invokes.
    + destruct (attempts_all_fatal provider prompt default_retries
                  default_initialDelay default_retries 0)
        as (e' & He' & Hrun');
        [unfold default_retries; lia | reflexivity | exact Hall |].
      rewrite enrich_unusable.
      * unfold generateContentWithRetry. fold prompt. rewrite Hrun'. reflexivity.
      * exact Hfalsy.
      * unfold generateContentWithRetry. fold prompt. rewrite Hrun'. reflexivity.
Qed.

Lemma fatal_errors_retried_without_backoff_witness :
  (exists before rest,
     snd (generateContentWithRetry (Some stub_transient_then_fatal)
            sample_prompt default_retries default_initialDelay)
     = before ++ Invoke 1 :: Invoke 2 :: rest) /\
  generateContentWithRetry (Some stub_always_fatal) sample_prompt
    default_retries default_initialDelay
  = (Rejected fatal_error, [Invoke 0; Invoke 1; Invoke 2]) /\
  enrich parse_stub (Some stub_always_fatal) (JNum 5) (JStr "Great service!")
    JUndefined
  = (JObj FALLBACK, [Invoke 0; Invoke 1; Invoke 2]).
Proof.
  split.
  - destruct (fatal_errors_retried_without_backoff parse_stub
                stub_transient_then_fatal default_retries default_initialDelay
                (JNum 5) (JStr "Great service!") JUndefined) as [Hstep _].
    destruct (Hstep 1%nat fatal_error) as (before & rest & _ & Htrace & _).
    + unfold default_retries. lia.
    + intros j Hj. exists busy_error. destruct j as [|j]; [reflexivity | lia].
    + reflexivity.
    + reflexivity.
    + exists before, rest. exact Htrace.
  - destruct (fatal_errors_retried_without_backoff parse_stub stub_always_fatal
                default_retries default_initialDelay (JNum 5)
                (JStr "Great service!") JUndefined) as [_ Hall].
    destruct Hall as (e & He & Hrun & _ & _ & Henrich).
    + intros j. exists fatal_error. split; reflexivity.
    + unfold default_retries. lia.
    + reflexivity.
    + split; [|exact Henrich].
      unfold sample_prompt. rewrite Hrun.
      injection He as <-. reflexivity.
Defined.



(** ** Claims about the POST handler *)

(** C10, as stated, fails with the durable backend: the document is
    saved through the schema, and the client's [aiAnalysis] [{}] is stored
    and answered as [{ recommendedActions: [] }], not as it was sent. *)
Lemma supplied_analysis_cast_by_schema :
  let stored :=
    newSubmission "u-1" (JNum 5) (JStr "Great service!") 1000
      (JObj {[ "recommendedActions" := JArr [] ]}) in
  truthy (get body_with_empty_analysis "aiAnalysis") = true /\
  get body_with_empty_analysis "aiAnalysis" = JObj ∅ /\
  post_feedback parse_stub schemaDouble None
    (@mkServer schemaDouble true [] ([] : list Obj))
    (BodyObject body_with_empty_analysis) "u-1" 1000
  = (mkResponse 201 (JObj stored),
     @mkServer schemaDouble true [] [stored], []) /\
  get stored "aiAnalysis" <> get body_with_empty_analysis "aiAnalysis".
Proof.
  repeat split. intros Heq. vm_compute in Heq. discriminate.
Qed.

(** C10, amended. When [req.body.aiAnalysis] is truthy the POST handler calls
    neither the provider nor the fallback, and does not look at the shape
    of the value. In memory the submission it stores carries the client's
    value unchanged; with the durable backend the submission it hands to
    the store carries the client's value unchanged, and what is stored is
    what the store makes of it. *)
Theorem supplied_analysis_stored_verbatim
    (JSON_parse : string -> option JValue) (B : DurableBackend)
    (genAI : option Provider) (st : Server B) (b : ReqBody)
    (uuid : string) (now : Z) :
  truthy (get (own_enumerable b) "aiAnalysis") = true ->
  let o := own_enumerable b in
  let submission :=
    newSubmission uuid (get o "rating") (get o "reviewText") now
      (get o "aiAnalysis") in
  let result := post_feedback JSON_parse B genAI st b uuid now in
  get submission "aiAnalysis" = get o "aiAnalysis" /\
  snd result = [] /\
  invocations (snd result) = 0%nat /\
  (useMongo st = false ->
   fst result
   = (mkResponse 201 (JObj submission),
      mkServer false (feedbackMemory st ++ [submission]) (collection st))) /\
  (useMongo st = true ->
   fst result
   = match Feedback_save B submission (collection st) with
     | DbOk (newFeedback, c) =>
       (mkResponse 201 (JObj newFeedback), mkServer true (feedbackMemory st) c)
     | DbError msg => (mkResponse 400 (message_body msg), st)
     end).
Proof.
  intros Htruthy o submission result.
  assert (b <> BodyUndefined) as Hb by (intros ->; discriminate).
  pose proof (enrich_supplied JSON_parse genAI (get o "rating")
                (get o "reviewText") (get o "aiAnalysis") Htruthy) as Henrich.
  split; [reflexivity|].
  assert (snd result = []) as Htrace.
  { subst result. destruct (useMongo st) eqn:Hmode.
    - rewrite post_feedback_durable by assumption.
      fold o. rewrite Henrich. cbn [fst snd].
      destruct (Feedback_save B _ _) as [[newFeedback c]|msg]; reflexivity.
    - rewrite post_feedback_memory by assumption.
      fold o. rewrite Henrich. reflexivity. }
  split; [exact Htrace|]. split; [rewrite Htrace; reflexivity|]. split.
  - intros Hmem. subst result. rewrite post_feedback_memory by assumption.
    fold o. rewrite Henrich. reflexivity.
  - intros Hdur. subst result. rewrite post_feedback_durable by assumption.
    fold o. rewrite Henrich. cbn [fst snd]. fold submission.
    destruct (Feedback_save B _ _) as [[newFeedback c]|msg]; reflexivity.
Qed.

Lemma supplied_analysis_stored_verbatim_witness :
  post_feedback parse_stub testDouble (Some stub_fatal_then_success)
    (empty_server false) (BodyObject body_with_empty_analysis) "u-1" 1000
  = (mkResponse 201
       (JObj (newSubmission "u-1" (JNum 5) (JStr "Great service!") 1000
                (JObj ∅))),
     @mkServer testDouble false
       [newSubmission "u-1" (JNum 5) (JStr "Great service!") 1000 (JObj ∅)]
       ([] : list Obj),
     []).
Proof.
  destruct (supplied_analysis_stored_verbatim parse_stub testDouble
              (Some stub_fatal_then_success) (empty_server false)
              (BodyObject body_with_empty_analysis) "u-1" 1000)
    as (_ & Htrace & _ & Hmem & _); [reflexivity|].
  rewrite (surjective_pairing (post_feedback _ _ _ _ _ _ _)).
  rewrite Htrace, Hmem by reflexivity. reflexivity.
Defined.





(** C5, as stated, fails: the empty body [{}], in which both [rating] and
    [reviewText] are absent, is answered with 201 and a submission is
    stored, by either backend. *)
Lemma absent_fields_are_accepted :
  let submission := newSubmission "u-1" JUndefined JUndefined 1000
                      (JObj FALLBACK) in
  sample_body !! "rating" = Some (JNum 5) /\
  (∅ : Obj) !! "rating" = None /\
  (∅ : Obj) !! "reviewText" = None /\
  post_feedback parse_stub testDouble None (empty_server false)
    (BodyObject ∅) "u-1" 1000
  = (mkResponse 201 (JObj submission),
     @mkServer testDouble false [submission] ([] : list Obj), []) /\
  post_feedback parse_stub testDouble None (empty_server true)
    (BodyObject ∅) "u-1" 1000
  = (mkResponse 201 (JObj submission),
     @mkServer testDouble true [] [submission], []) /\
  status (fst (fst (post_feedback parse_stub testDouble None
                      (empty_server false) (BodyObject ∅) "u-1" 1000)))
  <> 400.
Proof. repeat split. discriminate. Qed.

(** C5, amended. The POST handler does not look at whether [rating] and
    [reviewText] are there. For every body that is a JSON object or array
    it builds the submission from whatever the body holds under these
    names, [undefined] when absent, answers 201 and stores it; with the
    durable backend it answers 201 whenever the store accepts the document.
    Only a request whose body is undefined is answered with 400, and
    nothing is stored then. *)
Theorem presence_not_validated
    (JSON_parse : string -> option JValue) (B : DurableBackend)
    (genAI : option Provider) (st : Server B) (uuid : string) (now : Z) :
  post_feedback JSON_parse B genAI st BodyUndefined uuid now
  = (mkResponse 400 (message_body destructure_error), st, []) /\
  forall b, b <> BodyUndefined ->
    let o := own_enumerable b in
    let result := post_feedback JSON_parse B genAI st b uuid now in
    exists submission,
      get submission "rating" = get o "rating" /\
      get submission "reviewText" = get o "reviewText" /\
      (o !! "rating" = None -> get submission "rating" = JUndefined) /\
      (o !! "reviewText" = None -> get submission "reviewText" = JUndefined) /\
      (useMongo st = false ->
       fst (fst result) = mkResponse 201 (JObj submission) /\
       snd (fst result)
       = mkServer false (feedbackMemory st ++ [submission]) (collection st)) /\
      (useMongo st = true ->
       forall newFeedback c,
         Feedback_save B submission (collection st) = DbOk (newFeedback, c) ->
         fst (fst result) = mkResponse 201 (JObj newFeedback) /\
         snd (fst result) = mkServer true (feedbackMemory st) c).
Proof.
  split; [reflexivity|].
  intros b Hb o result.
  set (enriched := enrich JSON_parse genAI (get o "rating")
                     (get o "reviewText") (get o "aiAnalysis")).
  exists (newSubmission uuid (get o "rating") (get o "reviewText") now
            (fst enriched)).
  split; [reflexivity|]. split; [reflexivity|].
  split.
  { intros Hnone. change (get o "rating" = JUndefined).
    unfold get. rewrite Hnone. reflexivity. }
  split.
  { intros Hnone. change (get o "reviewText" = JUndefined).
    unfold get. rewrite Hnone. reflexivity. }
  split.
  - intros Hmem. subst result. rewrite post_feedback_memory by assumption.
    split; reflexivity.
  - intros Hdur newFeedback c Hsave. subst result.
    rewrite post_feedback_durable by assumption.
    fold o. fold enriched. rewrite Hsave. split; reflexivity.
Qed.

Lemma presence_not_validated_witness :
  BodyObject (∅ : Obj) <> BodyUndefined /\
  exists submission,
    get submission "rating" = JUndefined /\
    fst (fst (post_feedback parse_stub testDouble None (empty_server false)
                (BodyObject ∅) "u-1" 1000))
    = mkResponse 201 (JObj submission).
Proof.
  split; [discriminate|].
  destruct (presence_not_validated parse_stub testDouble None
              (empty_server false) "u-1" 1000) as [_ Hany].
  destruct (Hany (BodyObject ∅)) as (submission & _ & _ & Hrating & _ & Hmem & _);
    [discriminate|].
  exists submission. split; [apply Hrating; reflexivity|].
  destruct Hmem as [Hresp _]; [reflexivity|]. exact Hresp.
Defined.

(** ** The store: lookup by id *)

Lemma strict_eq_string_true (v : JValue) (s : string) :
  strict_eq_string v s = true <-> v = JStr s.
Proof.
  destruct v; cbn [strict_eq_string]; try (split; [discriminate | congruence]).
  rewrite String.eqb_eq. split; congruence.
Qed.

Lemma findIndex_Some (id : string) (l : list Obj) (index : nat) :
  findIndex id l = Some index ->
  exists f, l !! index = Some f /\ get f "id" = JStr id /\
    forall j g, l !! j = Some g -> (j < index)%nat -> get g "id" <> JStr id.
Proof.
  unfold findIndex. intros H.
  destruct (list_find _ l) as [[i f]|] eqn:Hfind; [|discriminate].
  cbn in H. injection H as ->.
  apply list_find_Some in Hfind as (Hlookup & Hid & Hfirst).
  exists f. split; [exact Hlookup|]. split.
  - apply strict_eq_string_true. exact Hid.
  - intros j g Hj Hlt Hg. apply (Hfirst j g Hj Hlt).
    apply strict_eq_string_true. exact Hg.
Qed.

Lemma findIndex_None (id : string) (l : list Obj) :
  findIndex id l = None <-> forall f, f ∈ l -> get f "id" <> JStr id.
Proof.
  unfold findIndex. split.
  - intros H f Hin Hid.
    destruct (list_find _ l) as [[i g]|] eqn:Hfind; [discriminate|].
    apply list_find_None in Hfind. rewrite Forall_forall in Hfind.
    apply (Hfind f Hin). apply strict_eq_string_true. exact Hid.
  - intros H.
    destruct (list_find _ l) as [[i g]|] eqn:Hfind; [|reflexivity].
    apply list_find_Some in Hfind as (Hlookup & Hid & _).
    exfalso. apply (H g).
    + apply list_elem_of_lookup. exists i. exact Hlookup.
    + apply strict_eq_string_true. exact Hid.
Qed.

Lemma findIndex_exists (id : string) (l : list Obj) :
  (exists f, f ∈ l /\ get f "id" = JStr id) ->
  exists index, findIndex id l = Some index.
Proof.
  intros (f & Hin & Hid).
  destruct (findIndex id l) as [index|] eqn:Hfind; [exists index; reflexivity|].
  exfalso. exact (proj1 (findIndex_None id l) Hfind f Hin Hid).
Qed.

(** ** Claims about PATCH *)

(** In memory, an id that no record carries is answered with 404 and the
    state is left as it was. *)
Lemma patch_unknown_id_memory (B : DurableBackend) (st : Server B)
    (id : string) (b : ReqBody) :
  useMongo st = false ->
  (forall f, f ∈ feedbackMemory st -> get f "id" <> JStr id) ->
  patch_feedback B st id b = (mkResponse 404 (message_body "Not found"), st).
Proof.
  intros Hmem Hunknown. unfold patch_feedback. rewrite Hmem.
  apply findIndex_None in Hunknown. rewrite Hunknown. reflexivity.
Qed.

(** With the durable backend, the null result of [findOneAndUpdate] is
    sent as it is, with status 200. *)
Lemma patch_null_result_durable (B : DurableBackend) (st : Server B)
    (id : string) (b : ReqBody) (c : Collection B) :
  useMongo st = true ->
  Feedback_findOneAndUpdate B id b (collection st) = DbOk (None, c) ->
  patch_feedback B st id b
  = (mkResponse 200 JNull, mkServer true (feedbackMemory st) c).
Proof.
  intros Hdur Hnull. unfold patch_feedback. rewrite Hdur, Hnull. reflexivity.
Qed.

(** C6. PATCH with an id that is not in the store: the in-memory branch
    answers 404 and changes nothing, as the claim says; the durable branch
    changes nothing either, but answers 200 with the body [null]. *)
Theorem patch_unknown_id_durable_answers_200
    (id : string) (b : ReqBody) (st : Server testDouble) :
  (forall f, f ∈ active_records st -> get f "id" <> JStr id) ->
  patch_feedback testDouble st id b
  = if useMongo st
    then (mkResponse 200 JNull, st)
    else (mkResponse 404 (message_body "Not found"), st).
Proof.
  intros Hunknown. destruct st as [mongo memory c].
  unfold active_records in Hunknown. cbn [useMongo] in *.
  destruct mongo; cbn [collection feedbackMemory] in Hunknown.
  - apply findIndex_None in Hunknown.
    unfold patch_feedback. cbn [useMongo collection Feedback_findOneAndUpdate testDouble].
    rewrite Hunknown. reflexivity.
  - apply patch_unknown_id_memory; [reflexivity | exact Hunknown].
Qed.

Lemma patch_unknown_id_durable_answers_200_witness :
  patch_feedback testDouble (server_with_sample true) "nonexistent"
    (BodyObject helpful_vote)
  = (mkResponse 200 JNull, server_with_sample true) /\
  patch_feedback testDouble (server_with_sample false) "nonexistent"
    (BodyObject helpful_vote)
  = (mkResponse 404 (message_body "Not found"), server_with_sample false).
Proof.
  split.
  - apply (patch_unknown_id_durable_answers_200 "nonexistent"
             (BodyObject helpful_vote) (server_with_sample true)).
    intros f Hin. apply list_elem_of_singleton in Hin. subst f. discriminate.
  - apply (patch_unknown_id_durable_answers_200 "nonexistent"
             (BodyObject helpful_vote) (server_with_sample false)).
    intros f Hin. apply list_elem_of_singleton in Hin. subst f. discriminate.
Defined.

(** The object spread [{ ...prior, ...fields }]: supplied fields overwrite,
    the others are untouched. *)
Lemma spread_supplied (fields prior : Obj) (k : string) (v : JValue) :
  fields !! k = Some v -> (fields ∪ prior) !! k = Some v.
Proof. intros H. apply lookup_union_Some_l. exact H. Qed.

Lemma spread_untouched (fields prior : Obj) (k : string) :
  fields !! k = None -> (fields ∪ prior) !! k = prior !! k.
Proof. intros H. apply lookup_union_r. exact H. Qed.

Lemma spread_helpful_vote (prior : Obj) :
  helpful_vote ∪ prior = <[ "helpfulResponse" := JBool true ]> prior.
Proof. unfold helpful_vote. symmetry. apply insert_union_singleton_l. Qed.

(** PATCH on a server over the test double, when [findIndex] succeeds. *)
Lemma patch_found (st : Server testDouble) (id : string) (b : ReqBody)
    (index : nat) (prior : Obj) :
  findIndex id (active_records st) = Some index ->
  active_records st !! index = Some prior ->
  let merged := own_enumerable b ∪ prior in
  patch_feedback testDouble st id b
  = (mkResponse 200 (JObj merged),
     if useMongo st
     then mkServer true (feedbackMemory st) (<[index := merged]> (collection st))
     else mkServer false (<[index := merged]> (feedbackMemory st))
            (collection st)).
Proof.
  intros Hfind Hprior merged. destruct st as [mongo memory c].
  unfold active_records in *. cbn [useMongo collection feedbackMemory] in *.
  unfold patch_feedback. destruct mongo;
    cbn [useMongo collection feedbackMemory Feedback_findOneAndUpdate testDouble];
    rewrite Hfind, Hprior; reflexivity.
Qed.

(** C8. PATCH on an id that exists answers with the record that was stored
    under that id, merged shallowly with the body: every field the body
    does not supply is left as it was, and the stored record is replaced by
    the merged one. For the body [{ helpfulResponse: true }] the answer is
    the prior record with [helpfulResponse] set to [true] and nothing else
    changed. This holds in memory and for the durable store. *)
Theorem patch_existing_id_shallow_merge
    (st : Server testDouble) (id : string) (b : ReqBody) :
  (exists f, f ∈ active_records st /\ get f "id" = JStr id) ->
  exists index prior,
    active_records st !! index = Some prior /\
    get prior "id" = JStr id /\
    let merged := own_enumerable b ∪ prior in
    let result := patch_feedback testDouble st id b in
    fst result = mkResponse 200 (JObj merged) /\
    useMongo (snd result) = useMongo st /\
    active_records (snd result) = <[index := merged]> (active_records st) /\
    (forall k, own_enumerable b !! k = None -> merged !! k = prior !! k) /\
    (forall k v, own_enumerable b !! k = Some v -> merged !! k = Some v) /\
    (b = BodyObject helpful_vote ->
     merged = <[ "helpfulResponse" := JBool true ]> prior /\
     get merged "helpfulResponse" = JBool true /\
     forall k, k <> "helpfulResponse" -> get merged k = get prior k).
Proof.
  intros Hexists.
  destruct (findIndex_exists id (active_records st) Hexists) as [index Hfind].
  destruct (findIndex_Some id _ index Hfind) as (prior & Hprior & Hid & _).
  exists index, prior. split; [exact Hprior|]. split; [exact Hid|].
  intros merged result. subst result.
  rewrite (patch_found st id b index prior Hfind Hprior). cbn [fst snd].
  fold merged.
  split; [reflexivity|]. split; [destruct (useMongo st); reflexivity|].
  split.
  { unfold active_records. destruct (useMongo st); reflexivity. }
  split; [intros k Hk; apply spread_untouched; exact Hk|].
  split; [intros k v Hk; apply spread_supplied; exact Hk|].
  intros ->. subst merged. cbn [own_enumerable].
  rewrite spread_helpful_vote. split; [reflexivity|]. split.
  - unfold get. rewrite lookup_insert_eq. reflexivity.
  - intros k Hk. unfold get. rewrite lookup_insert_ne by congruence.
    reflexivity.
Qed.

Lemma patch_existing_id_shallow_merge_witness :
  fst (patch_feedback testDouble (server_with_sample false) "u-1"
         (BodyObject helpful_vote))
  = mkResponse 200
      (JObj (<[ "helpfulResponse" := JBool true ]> stored_sample)).
Proof.
  destruct (patch_existing_id_shallow_merge (server_with_sample false) "u-1"
              (BodyObject helpful_vote))
    as (index & prior & Hprior & _ & Hresp & _ & _ & _ & _ & Hvote).
  - exists stored_sample. split; [|reflexivity].
    apply list_elem_of_singleton; reflexivity.
  - destruct (Hvote eq_refl) as [Hmerged _].
    rewrite Hresp, Hmerged.
    assert (prior = stored_sample) as ->; [|reflexivity].
    change ([stored_sample] !! index = Some prior) in Hprior.
    destruct index as [|index].
    + change (Some stored_sample = Some prior) in Hprior. congruence.
    + change (([] : list Obj) !! index = Some prior) in Hprior.
      rewrite lookup_nil in Hprior. discriminate.
Defined.

(** ** The listing order *)

Lemma stays_before_numbers (x y : Obj) (tx ty : Z) :
  get x "timestamp" = JNum tx -> get y "timestamp" = JNum ty ->
  stays_before x y = (ty - tx <=? 0).
Proof.
  intros Hx Hy. unfold stays_before, compare_timestamp_desc.
  rewrite Hx, Hy. reflexivity.
Qed.

Lemma has_number_timestamp_get (f : Obj) :
  has_number_timestamp f = true -> get f "timestamp" = JNum (timestamp_of f).
Proof.
  unfold has_number_timestamp, timestamp_of.
  destruct (get f "timestamp"); (discriminate || reflexivity).
Qed.

Lemma sort_insert_Permutation (x : Obj) (l : list Obj) :
  sort_insert x l ≡ₚ x :: l.
Proof.
  induction l as [|y l IH]; cbn [sort_insert]; [reflexivity|].
  destruct (stays_before x y); [reflexivity|].
  rewrite IH. apply perm_swap.
Qed.

Lemma sort_timestamp_desc_Permutation (l : list Obj) :
  sort_timestamp_desc l ≡ₚ l.
Proof.
  induction l as [|x l IH]; cbn [sort_timestamp_desc]; [reflexivity|].
  rewrite sort_insert_Permutation, IH. reflexivity.
Qed.

Lemma sort_insert_sorted (x : Obj) (l : list Obj) :
  has_number_timestamp x = true ->
  Forall (fun f => has_number_timestamp f = true) l ->
  StronglySorted newer_or_same l ->
  StronglySorted newer_or_same (sort_insert x l).
Proof.
  intros Hx Hall Hsorted.
  induction l as [|y l IH]; cbn [sort_insert].
  - constructor; constructor.
  - apply Forall_cons in Hall as [Hy Hall].
    apply StronglySorted_inv in Hsorted as [Hsorted Hy_first].
    rewrite (stays_before_numbers x y _ _ (has_number_timestamp_get x Hx)
               (has_number_timestamp_get y Hy)).
    destruct (timestamp_of y - timestamp_of x <=? 0) eqn:Hcmp.
    + apply Z.leb_le in Hcmp.
      constructor; [constructor; assumption|].
      constructor; [unfold newer_or_same; lia|].
      eapply Forall_impl; [exact Hy_first|].
      intros z Hz. unfold newer_or_same in *. cbn beta in *. lia.
    + apply Z.leb_gt in Hcmp.
      constructor; [apply IH; assumption|].
      rewrite sort_insert_Permutation.
      constructor; [unfold newer_or_same; lia | exact Hy_first].
Qed.

Lemma sort_timestamp_desc_sorted (l : list Obj) :
  Forall (fun f => has_number_timestamp f = true) l ->
  StronglySorted newer_or_same (sort_timestamp_desc l).
Proof.
  induction l as [|x l IH]; intros Hall; cbn [sort_timestamp_desc].
  - constructor.
  - apply Forall_cons in Hall as [Hx Hall].
    apply sort_insert_sorted; [exact Hx | | apply IH; exact Hall].
    rewrite sort_timestamp_desc_Permutation. exact Hall.
Qed.

(** Three records pushed in the order of their timestamps come out
    reversed. *)
Lemma sort_three_ascending (f1 f2 f3 : Obj) (T1 T2 T3 : Z) :
  get f1 "timestamp" = JNum T1 ->
  get f2 "timestamp" = JNum T2 ->
  get f3 "timestamp" = JNum T3 ->
  T1 < T2 -> T2 < T3 ->
  sort_timestamp_desc [f1; f2; f3] = [f3; f2; f1].
Proof.
  intros H1 H2 H3 H12 H23. cbn [sort_timestamp_desc sort_insert].
  rewrite (stays_before_numbers f2 f3 T2 T3 H2 H3).
  replace (T3 - T2 <=? 0) with false by (symmetry; apply Z.leb_gt; lia).
  cbn [sort_insert].
  rewrite (stays_before_numbers f1 f3 T1 T3 H1 H3).
  replace (T3 - T1 <=? 0) with false by (symmetry; apply Z.leb_gt; lia).
  rewrite (stays_before_numbers f1 f2 T1 T2 H1 H2).
  replace (T2 - T1 <=? 0) with false by (symmetry; apply Z.leb_gt; lia).
  reflexivity.
Qed.

(** GET on a server over the test double lists the records of the backend
    in use, sorted. *)
Lemma get_feedback_lists_sorted (st : Server testDouble) :
  fst (get_feedback testDouble st)
  = mkResponse 200 (JArr (JObj <$> sort_timestamp_desc (active_records st))).
Proof.
  unfold get_feedback, active_records. destruct (useMongo st); reflexivity.
Qed.

(** C7. GET lists the records of the store by descending timestamp: the
    listing is a rearrangement of the stored records in which no record
    comes before a newer one. In particular, after three submissions made
    at the instants T1 < T2 < T3 into an empty store, GET answers with the
    third, the second and the first, in this order. Both hold in memory
    and for the durable store. *)
Theorem listing_descending_timestamp
    (JSON_parse : string -> option JValue) (g1 g2 g3 : option Provider)
    (mongo : bool) (b1 b2 b3 : ReqBody) (u1 u2 u3 : string) (T1 T2 T3 : Z) :
  (forall st : Server testDouble,
     Forall (fun f => has_number_timestamp f = true) (active_records st) ->
     exists listed,
       fst (get_feedback testDouble st)
       = mkResponse 200 (JArr (JObj <$> listed)) /\
       listed ≡ₚ active_records st /\
       StronglySorted newer_or_same listed) /\
  (b1 <> BodyUndefined -> b2 <> BodyUndefined -> b3 <> BodyUndefined ->
   T1 < T2 -> T2 < T3 ->
   let r1 :=
     post_feedback JSON_parse testDouble g1 (empty_server mongo) b1 u1 T1 in
   let r2 :=
     post_feedback JSON_parse testDouble g2 (snd (fst r1)) b2 u2 T2 in
   let r3 :=
     post_feedback JSON_parse testDouble g3 (snd (fst r2)) b3 u3 T3 in
   exists s1 s2 s3,
     fst (fst r1) = mkResponse 201 (JObj s1) /\
     fst (fst r2) = mkResponse 201 (JObj s2) /\
     fst (fst r3) = mkResponse 201 (JObj s3) /\
     get s1 "timestamp" = JNum T1 /\
     get s2 "timestamp" = JNum T2 /\
     get s3 "timestamp" = JNum T3 /\
     active_records (snd (fst r3)) = [s1; s2; s3] /\
     fst (get_feedback testDouble (snd (fst r3)))
     = mkResponse 200 (JArr [JObj s3; JObj s2; JObj s1])).
Proof.
  split.
  - intros st Hnumbers. exists (sort_timestamp_desc (active_records st)).
    split; [apply get_feedback_lists_sorted|].
    split; [apply sort_timestamp_desc_Permutation|].
    apply sort_timestamp_desc_sorted. exact Hnumbers.
  - intros Hb1 Hb2 Hb3 H12 H23 r1 r2 r3.
    set (o1 := own_enumerable b1). set (o2 := own_enumerable b2).
    set (o3 := own_enumerable b3).
    set (s1 := newSubmission u1 (get o1 "rating") (get o1 "reviewText") T1
                 (fst (enrich JSON_parse g1 (get o1 "rating")
                         (get o1 "reviewText") (get o1 "aiAnalysis")))).
    set (s2 := newSubmission u2 (get o2 "rating") (get o2 "reviewText") T2
                 (fst (enrich JSON_parse g2 (get o2 "rating")
                         (get o2 "reviewText") (get o2 "aiAnalysis")))).
    set (s3 := newSubmission u3 (get o3 "rating") (get o3 "reviewText") T3
                 (fst (enrich JSON_parse g3 (get o3 "rating")
                         (get o3 "reviewText") (get o3 "aiAnalysis")))).
    exists s1, s2, s3.
    assert (fst r1 = (mkResponse 201 (JObj s1),
                      if mongo
                      then @mkServer testDouble true [] [s1]
                      else @mkServer testDouble false [s1] ([] : list Obj)))
      as E1.
    { subst r1. destruct mongo.
      - rewrite post_feedback_durable by (assumption || reflexivity).
        reflexivity.
      - rewrite post_feedback_memory by (assumption || reflexivity).
        reflexivity. }
    assert (fst r2 = (mkResponse 201 (JObj s2),
                      if mongo
                      then @mkServer testDouble true [] [s1; s2]
                      else @mkServer testDouble false [s1; s2] ([] : list Obj)))
      as E2.
    { subst r2. rewrite E1. cbn [snd]. destruct mongo.
      - rewrite post_feedback_durable by (assumption || reflexivity).
        reflexivity.
      - rewrite post_feedback_memory by (assumption || reflexivity).
        reflexivity. }
    assert (fst r3 = (mkResponse 201 (JObj s3),
                      if mongo
                      then @mkServer testDouble true [] [s1; s2; s3]
                      else @mkServer testDouble false [s1; s2; s3]
                             ([] : list Obj)))
      as E3.
    { subst r3. rewrite E2. cbn [snd]. destruct mongo.
      - rewrite post_feedback_durable by (assumption || reflexivity).
        reflexivity.
      - rewrite post_feedback_memory by (assumption || reflexivity).
        reflexivity. }
    rewrite E1, E2, E3. cbn [fst snd].
    repeat (split; [reflexivity|]).
    split; [destruct mongo; reflexivity|].
    rewrite get_feedback_lists_sorted.
    replace (active_records _) with [s1; s2; s3] by (destruct mongo; reflexivity).
    rewrite (sort_three_ascending s1 s2 s3 T1 T2 T3) by (reflexivity || assumption).
    reflexivity.
Qed.

Lemma listing_descending_timestamp_witness :
  let r1 := post_feedback parse_stub testDouble None (empty_server false)
              (BodyObject sample_body) "u-1" 1000 in
  let r2 := post_feedback parse_stub testDouble None (snd (fst r1))
              (BodyObject sample_body) "u-2" 2000 in
  let r3 := post_feedback parse_stub testDouble None (snd (fst r2))
              (BodyObject sample_body) "u-3" 3000 in
  fst (get_feedback testDouble (snd (fst r3)))
  = mkResponse 200 (JArr [body (fst (fst r3)); body (fst (fst r2));
                          body (fst (fst r1))]).
Proof.
  intros r1 r2 r3.
  destruct (listing_descending_timestamp parse_stub None None None false
              (BodyObject sample_body) (BodyObject sample_body)
              (BodyObject sample_body) "u-1" "u-2" "u-3" 1000 2000 3000)
    as [_ Hscenario].
  destruct Hscenario as (s1 & s2 & s3 & E1 & E2 & E3 & _ & _ & _ & _ & Hget);
    [discriminate | discriminate | discriminate | lia | lia |].
  fold r1 r2 r3 in E1, E2, E3, Hget.
  rewrite Hget, E1, E2, E3. reflexivity.
Defined.

(** * Further properties *)

(** ** Bounds on a run of the retry helper *)

Lemma snd_after {A} (evs : list Event) (r : A * list Event) :
  snd (after evs r) = evs ++ snd r.
Proof. reflexivity. Qed.

Lemma fst_after {A} (evs : list Event) (r : A * list Event) :
  fst (after evs r) = fst r.
Proof. reflexivity. Qed.

Lemma invocations_nil : invocations [] = 0%nat.
Proof. reflexivity. Qed.

Ltac count_invocations :=
  cbn [snd app];
  rewrite ?snd_after; cbn [app];
  rewrite ?invocations_cons_invoke, ?invocations_cons_sleep, ?invocations_nil.

Section AttemptsBounds.
Variables (provider : Provider) (prompt : Prompt).
Variables (retries : nat) (initialDelay : Z).

Lemma attempts_invocations_le (fuel i : nat) :
  (invocations (snd (attempts provider prompt retries initialDelay fuel i))
   <= fuel)%nat.
Proof.
  revert i. induction fuel as [|fuel IH]; intros i; cbn [attempts].
  - count_invocations. lia.
  - destruct (provider prompt i) as [response|error].
    + count_invocations. lia.
    + destruct (isTransient error && _).
      * count_invocations. specialize (IH (S i)). lia.
      * destruct (_ =? _).
        -- count_invocations. lia.
        -- count_invocations. specialize (IH (S i)). lia.
Qed.

Lemma attempts_invocations_pos (fuel i : nat) :
  (0 < fuel)%nat ->
  (1 <= invocations (snd (attempts provider prompt retries initialDelay fuel i)))%nat.
Proof.
  intros Hpos. destruct fuel as [|fuel]; [lia|]. cbn [attempts].
  destruct (provider prompt i) as [response|error].
  - count_invocations. lia.
  - destruct (isTransient error && _).
    + count_invocations. lia.
    + destruct (_ =? _); count_invocations; lia.
Qed.

Lemma attempts_suspended_bounds (fuel i : nat) :
  0 <= initialDelay -> (0 < fuel)%nat -> (i + fuel = retries)%nat ->
  0 <= suspended (snd (attempts provider prompt retries initialDelay fuel i))
    <= initialDelay * (2 ^ Z.of_nat (retries - 1) - 2 ^ Z.of_nat i).
Proof.
  intros Hd. revert i. induction fuel as [|fuel IH]; intros i Hpos Hsum; [lia|].
  assert (2 ^ Z.of_nat i <= 2 ^ Z.of_nat (retries - 1)) as Hpow
    by (apply Z.pow_le_mono_r; lia).
  assert (0 < 2 ^ Z.of_nat i) as Hpos2 by (apply Z.pow_pos_nonneg; lia).
  assert (2 ^ Z.of_nat (S i) = 2 * 2 ^ Z.of_nat i) as Hsucc
    by (rewrite Nat2Z.inj_succ, Z.pow_succ_r by lia; reflexivity).
  cbn [attempts].
  destruct (provider prompt i) as [response|error].
  - cbn [snd suspended]. nia.
  - destruct (isTransient error && (Z.of_nat i <? Z.of_nat retries - 1)) eqn:Hretry.
    + apply andb_true_iff in Hretry as [_ Hlt]. apply Z.ltb_lt in Hlt.
      rewrite snd_after. cbn [app suspended].
      destruct (IH (S i)) as [Hlo Hhi]; [lia | lia |].
      rewrite Hsucc in Hhi. nia.
    + destruct (Z.of_nat i =? Z.of_nat retries - 1) eqn:Hlast.
      * cbn [snd suspended]. nia.
      * apply Z.eqb_neq in Hlast.
        rewrite snd_after. cbn [app suspended].
        destruct (IH (S i)) as [Hlo Hhi]; [lia | lia |].
        rewrite Hsucc in Hhi. nia.
Qed.

End AttemptsBounds.


Section AttemptsOutcome.
Variables (provider : Provider) (prompt : Prompt).
Variables (retries : nat) (initialDelay : Z).

(** A run that throws has called the provider at every remaining index,
    and throws the error of the call at index [retries - 1]. *)
Lemma attempts_rejected_last (fuel i : nat) (e : ApiError) :
  (i + fuel = retries)%nat ->
  fst (attempts provider prompt retries initialDelay fuel i) = Rejected e ->
  provider prompt (retries - 1)%nat = Rejected e /\
  invocations (snd (attempts provider prompt retries initialDelay fuel i))
  = fuel /\
  forall j, (i <= j < retries)%nat -> exists e', provider prompt j = Rejected e'.
Proof.
  revert i. induction fuel as [|fuel IH]; intros i Hsum; cbn [attempts].
  - cbn [fst]. discriminate.
  - destruct (provider prompt i) as [response|error] eqn:Hcall.
    + cbn [fst]. discriminate.
    + destruct (isTransient error && (Z.of_nat i <? Z.of_nat retries - 1)) eqn:Hretry.
      * rewrite fst_after. intros Hrej.
        destruct (IH (S i)) as (Hlast & Hcount & Hall); [lia | exact Hrej |].
        split; [exact Hlast|]. split.
        -- count_invocations. rewrite Hcount. reflexivity.
        -- intros j Hj. destruct (decide (j = i)) as [->|Hne].
           ++ exists error. exact Hcall.
           ++ apply Hall. lia.
      * destruct (Z.of_nat i =? Z.of_nat retries - 1) eqn:Hlast.
        -- apply Z.eqb_eq in Hlast. cbn [fst]. intros [= <-].
           assert (fuel = 0%nat) as -> by lia.
           replace (retries - 1)%nat with i by lia.
           split; [exact Hcall|]. split; [reflexivity|].
           intros j Hj. assert (j = i) as -> by lia. exists error. exact Hcall.
        -- rewrite fst_after. intros Hrej.
           destruct (IH (S i)) as (Hl & Hcount & Hall); [lia | exact Hrej |].
           split; [exact Hl|]. split.
           ++ count_invocations. rewrite Hcount. reflexivity.
           ++ intros j Hj. destruct (decide (j = i)) as [->|Hne].
              ** exists error. exact Hcall.
              ** apply Hall. lia.
Qed.

(** The first answer within the allowed calls is what the run returns,
    whatever the errors before it were. *)
Lemma attempts_first_answer (fuel i k : nat) (response : GenResponse) :
  (i + fuel = retries)%nat -> (i <= k < retries)%nat ->
  provider prompt k = Resolved response ->
  (forall j, (i <= j < k)%nat -> exists e, provider prompt j = Rejected e) ->
  fst (attempts provider prompt retries initialDelay fuel i)
  = Resolved (EResponse response) /\
  invocations (snd (attempts provider prompt retries initialDelay fuel i))
  = S (k - i).
Proof.
  revert i. induction fuel as [|fuel IH]; intros i Hsum Hk Hans Hbefore; [lia|].
  cbn [attempts].
  destruct (decide (i = k)) as [->|Hne].
  - rewrite Hans. split; [reflexivity|]. count_invocations. f_equal. lia.
  - destruct (Hbefore i) as [e He]; [lia|]. rewrite He.
    destruct (isTransient e && (Z.of_nat i <? Z.of_nat retries - 1)) eqn:Hretry.
    + rewrite fst_after.
      destruct (IH (S i)) as [Hres Hcount];
        [lia | lia | exact Hans | intros j Hj; apply Hbefore; lia |].
      split; [exact Hres|]. count_invocations. rewrite Hcount. f_equal. lia.
    + destruct (Z.of_nat i =? Z.of_nat retries - 1) eqn:Hlast.
      * apply Z.eqb_eq in Hlast. lia.
      * rewrite fst_after.
        destruct (IH (S i)) as [Hres Hcount];
          [lia | lia | exact Hans | intros j Hj; apply Hbefore; lia |].
        split; [exact Hres|]. count_invocations. rewrite Hcount. f_equal. lia.
Qed.

(** A run with calls to make never ends with [undefined]. *)
Lemma attempts_never_undefined (fuel i : nat) :
  (0 < fuel)%nat -> (i + fuel = retries)%nat ->
  fst (attempts provider prompt retries initialDelay fuel i)
  <> Resolved EUndefined /\
  fst (attempts provider prompt retries initialDelay fuel i)
  <> Resolved ENull.
Proof.
  revert i. induction fuel as [|fuel IH]; intros i Hpos Hsum; [lia|].
  cbn [attempts].
  destruct (provider prompt i) as [response|error].
  - split; discriminate.
  - destruct (isTransient error && (Z.of_nat i <? Z.of_nat retries - 1)) eqn:Hretry.
    + apply andb_true_iff in Hretry as [_ Hlt]. apply Z.ltb_lt in Hlt.
      rewrite fst_after. apply IH; lia.
    + destruct (Z.of_nat i =? Z.of_nat retries - 1) eqn:Hlast.
      * split; discriminate.
      * apply Z.eqb_neq in Hlast. rewrite fst_after. apply IH; lia.
Qed.

(** When every call is rejected with a transient error, each call but the
    last is followed by its backoff. *)
Lemma attempts_all_transient (fuel i : nat) :
  (0 < fuel)%nat -> (i + fuel = retries)%nat ->
  (forall j, exists e, provider prompt j = Rejected e /\ isTransient e = true) ->
  exists e, provider prompt (retries - 1)%nat = Rejected e /\
    fst (attempts provider prompt retries initialDelay fuel i) = Rejected e /\
    invocations (snd (attempts provider prompt retries initialDelay fuel i))
    = fuel /\
    suspended (snd (attempts provider prompt retries initialDelay fuel i))
    = initialDelay * (2 ^ Z.of_nat (retries - 1) - 2 ^ Z.of_nat i).
Proof.
  revert i. induction fuel as [|fuel IH]; intros i Hpos Hsum Hall; [lia|].
  cbn [attempts]. destruct (Hall i) as (e & He & Htransient).
  rewrite He, Htransient. cbn [andb].
  destruct (Z.of_nat i <? Z.of_nat retries - 1) eqn:Hlt.
  - apply Z.ltb_lt in Hlt.
    destruct (IH (S i)) as (e' & He' & Hres & Hcount & Hsusp);
      [lia | lia | exact Hall |].
    exists e'. split; [exact He'|]. rewrite fst_after. split; [exact Hres|].
    split.
    + count_invocations. rewrite Hcount. reflexivity.
    + rewrite snd_after. cbn [app suspended]. rewrite Hsusp.
      rewrite Nat2Z.inj_succ, Z.pow_succ_r by lia. ring.
  - apply Z.ltb_ge in Hlt.
    assert ((Z.of_nat i =? Z.of_nat retries - 1) = true) as -> by (apply Z.eqb_eq; lia).
    assert (fuel = 0%nat) as -> by lia.
    replace (retries - 1)%nat with i by lia.
    exists e. split; [exact He|]. split; [reflexivity|].
    split; [reflexivity|]. cbn [snd suspended]. ring.
Qed.

End AttemptsOutcome.

Lemma append_cons (a : Ascii.ascii) (s t : string) :
  String.append (String a s) t = String a (String.append s t).
Proof. reflexivity. Qed.

Lemma append_nil (t : string) : String.append EmptyString t = t.
Proof. reflexivity. Qed.

Lemma prefix_spec (s1 s2 : string) :
  String.prefix s1 s2 = true <-> exists post, s2 = String.append s1 post.
Proof.
  revert s2. induction s1 as [|a s1 IH]; intros s2.
  - split; [intros _; exists s2; reflexivity | intros _; destruct s2; reflexivity].
  - destruct s2 as [|b s2]; cbn [String.prefix].
    + split; [discriminate | intros [post H]; rewrite append_cons in H; discriminate].
    + destruct (Ascii.ascii_dec a b) as [->|Hne].
      * rewrite IH. split; intros [post H]; exists post.
        -- rewrite append_cons, H. reflexivity.
        -- rewrite append_cons in H. congruence.
      * split; [discriminate | intros [post H]; rewrite append_cons in H; congruence].
Qed.

(** [hay.includes(needle)] holds exactly when [needle] occurs in [hay]. *)
Lemma includes_spec (needle hay : string) :
  includes needle hay = true <->
  exists pre post, hay = String.append pre (String.append needle post).
Proof.
  induction hay as [|c hay IH]; cbn [includes].
  - rewrite orb_false_r, prefix_spec. split.
    + intros [post H]. exists EmptyString, post. exact H.
    + intros (pre & post & H). destruct pre as [|a pre];
        [|rewrite append_cons in H; discriminate].
      exists post. exact H.
  - rewrite orb_true_iff, prefix_spec, IH. split.
    + intros [[post H] | (pre & post & H)].
      * exists EmptyString, post. exact H.
      * exists (String c pre), post. rewrite append_cons, H. reflexivity.
    + intros (pre & post & H). destruct pre as [|a pre].
      * left. exists post. exact H.
      * right. exists pre, post. rewrite append_cons in H. congruence.
Qed.


(** ** Sorting and lookup *)

Lemma stays_before_timestamp_of (x y : Obj) :
  has_number_timestamp x = true -> has_number_timestamp y = true ->
  stays_before x y = (timestamp_of y - timestamp_of x <=? 0).
Proof.
  intros Hx Hy. apply stays_before_numbers; apply has_number_timestamp_get; assumption.
Qed.

(** Sorting a list that is in order already changes nothing. *)
Lemma sort_timestamp_desc_sorted_id (l : list Obj) :
  Forall (fun f => has_number_timestamp f = true) l ->
  StronglySorted newer_or_same l ->
  sort_timestamp_desc l = l.
Proof.
  induction l as [|x l IH]; intros Hnum Hsorted; [reflexivity|].
  apply Forall_cons in Hnum as [Hx Hnum].
  apply StronglySorted_inv in Hsorted as [Hsorted Hfirst].
  cbn [sort_timestamp_desc]. rewrite IH by assumption.
  destruct l as [|y l]; [reflexivity|]. cbn [sort_insert].
  apply Forall_cons in Hnum as [Hy _]. apply Forall_cons in Hfirst as [Hxy _].
  rewrite stays_before_timestamp_of by assumption.
  unfold newer_or_same in Hxy.
  replace (timestamp_of y - timestamp_of x <=? 0) with true
    by (symmetry; apply Z.leb_le; lia).
  reflexivity.
Qed.

Lemma sort_timestamp_desc_numbers (l : list Obj) :
  Forall (fun f => has_number_timestamp f = true) l ->
  Forall (fun f => has_number_timestamp f = true) (sort_timestamp_desc l).
Proof. intros H. rewrite sort_timestamp_desc_Permutation. exact H. Qed.

Lemma sort_timestamp_desc_idempotent (l : list Obj) :
  Forall (fun f => has_number_timestamp f = true) l ->
  sort_timestamp_desc (sort_timestamp_desc l) = sort_timestamp_desc l.
Proof.
  intros H. apply sort_timestamp_desc_sorted_id.
  - apply sort_timestamp_desc_numbers. exact H.
  - apply sort_timestamp_desc_sorted. exact H.
Qed.

(** The sort is stable: the records of one timestamp stay in their order. *)
Lemma sort_insert_stable (t : Z) (x : Obj) (l : list Obj) :
  has_number_timestamp x = true ->
  Forall (fun f => has_number_timestamp f = true) l ->
  filter (fun f => timestamp_of f = t) (sort_insert x l)
  = filter (fun f => timestamp_of f = t) (x :: l).
Proof.
  intros Hx Hnum. induction l as [|y l IH]; [reflexivity|].
  apply Forall_cons in Hnum as [Hy Hnum]. cbn [sort_insert].
  rewrite stays_before_timestamp_of by assumption.
  destruct (timestamp_of y - timestamp_of x <=? 0) eqn:Hcmp; [reflexivity|].
  apply Z.leb_gt in Hcmp.
  rewrite filter_cons, (IH Hnum), !filter_cons.
  destruct (decide (timestamp_of y = t)) as [Hyt|Hyt];
    destruct (decide (timestamp_of x = t)) as [Hxt|Hxt];
    try reflexivity.
  lia.
Qed.

Lemma sort_timestamp_desc_stable (t : Z) (l : list Obj) :
  Forall (fun f => has_number_timestamp f = true) l ->
  filter (fun f => timestamp_of f = t) (sort_timestamp_desc l)
  = filter (fun f => timestamp_of f = t) l.
Proof.
  induction l as [|x l IH]; intros Hnum; [reflexivity|].
  apply Forall_cons in Hnum as [Hx Hnum]. cbn [sort_timestamp_desc].
  rewrite sort_insert_stable
    by (assumption || apply sort_timestamp_desc_numbers; assumption).
  rewrite !filter_cons, (IH Hnum). reflexivity.
Qed.

(** A record newer than all the others, pushed last, is listed first. *)
Lemma sort_timestamp_desc_newest_last (s : Obj) (l : list Obj) :
  has_number_timestamp s = true ->
  Forall (fun f => has_number_timestamp f = true) l ->
  Forall (fun f => timestamp_of f < timestamp_of s) l ->
  sort_timestamp_desc (l ++ [s]) = s :: sort_timestamp_desc l.
Proof.
  intros Hs. induction l as [|x l IH]; intros Hnum Hnew; [reflexivity|].
  apply Forall_cons in Hnum as [Hx Hnum]. apply Forall_cons in Hnew as [Hxs Hnew].
  cbn [app sort_timestamp_desc]. rewrite (IH Hnum Hnew). cbn [sort_insert].
  rewrite stays_before_timestamp_of by assumption.
  replace (timestamp_of s - timestamp_of x <=? 0) with false
    by (symmetry; apply Z.leb_gt; lia).
  reflexivity.
Qed.

(** Lookup by id, from what is known of the list. *)
Lemma findIndex_intro (id : string) (l : list Obj) (index : nat) (f : Obj) :
  l !! index = Some f -> get f "id" = JStr id ->
  (forall j g, l !! j = Some g -> (j < index)%nat -> get g "id" <> JStr id) ->
  findIndex id l = Some index.
Proof.
  intros Hlookup Hid Hfirst. unfold findIndex.
  assert (list_find (fun f => strict_eq_string (get f "id") id = true) l
          = Some (index, f)) as ->; [|reflexivity].
  apply list_find_Some. split; [exact Hlookup|]. split.
  - apply strict_eq_string_true. exact Hid.
  - intros j g Hj Hlt Hg. apply (Hfirst j g Hj Hlt).
    apply strict_eq_string_true. exact Hg.
Qed.

Lemma findIndex_lt (id : string) (l : list Obj) (index : nat) :
  findIndex id l = Some index -> (index < length l)%nat.
Proof.
  intros H. destruct (findIndex_Some id l index H) as (f & Hf & _).
  apply lookup_lt_Some in Hf. exact Hf.
Qed.

Lemma findIndex_pushed (id : string) (l : list Obj) (s : Obj) :
  (forall f, f ∈ l -> get f "id" <> JStr id) -> get s "id" = JStr id ->
  findIndex id (l ++ [s]) = Some (length l).
Proof.
  intros Hfresh Hid. apply (findIndex_intro id _ _ s).
  - rewrite lookup_app_r by lia. rewrite Nat.sub_diag. reflexivity.
  - exact Hid.
  - intros j g Hj Hlt. rewrite lookup_app_l in Hj by exact Hlt.
    apply Hfresh. apply list_elem_of_lookup. exists j. exact Hj.
Qed.

(** Replacing the record found by one of the same id keeps it found. *)
Lemma findIndex_replaced (id : string) (l : list Obj) (index : nat) (g : Obj) :
  findIndex id l = Some index -> get g "id" = JStr id ->
  findIndex id (<[index := g]> l) = Some index.
Proof.
  intros Hfind Hid.
  pose proof (findIndex_lt id l index Hfind) as Hlt.
  destruct (findIndex_Some id l index Hfind) as (f & Hf & _ & Hfirst).
  apply (findIndex_intro id _ _ g).
  - apply list_lookup_insert_eq. exact Hlt.
  - exact Hid.
  - intros j h Hj Hjlt. rewrite list_lookup_insert_ne in Hj by lia.
    apply (Hfirst j h Hj Hjlt).
Qed.


(** ** More on the retry helper *)

(** X1. The provider is never called more often than [retries] allows, and
    with a client and at least one allowed attempt it is called at least
    once. *)
Theorem retry_invocations_bounded (genAI : option Provider) (prompt : Prompt)
    (retries : nat) (initialDelay : Z) :
  let tr := snd (generateContentWithRetry genAI prompt retries initialDelay) in
  (invocations tr <= retries)%nat /\
  (match genAI with
   | Some _ => if decide (retries = 0%nat) then invocations tr = 0%nat
               else (1 <= invocations tr)%nat
   | None => invocations tr = 0%nat
   end).
Proof.
  unfold generateContentWithRetry. destruct genAI as [provider|]; cbn zeta.
  - split; [apply attempts_invocations_le|].
    destruct (decide (retries = 0%nat)) as [->|Hne]; [reflexivity|].
    apply attempts_invocations_pos. lia.
  - split; [cbn [snd]; rewrite invocations_nil; lia | reflexivity].
Qed.

(** X2. With a delay that is not negative, the time spent suspended in one
    run is at most [initialDelay * (2^(retries-1) - 1)], which is 3000 ms
    at the defaults. *)
Theorem retry_suspension_bounded (genAI : option Provider) (prompt : Prompt)
    (retries : nat) (initialDelay : Z) :
  0 <= initialDelay ->
  0 <= suspended (snd (generateContentWithRetry genAI prompt retries
                         initialDelay))
    <= initialDelay * (2 ^ Z.of_nat (retries - 1) - 1).
Proof.
  intros Hd.
  assert (0 < 2 ^ Z.of_nat (retries - 1)) as Hpow
    by (apply Z.pow_pos_nonneg; lia).
  unfold generateContentWithRetry. destruct genAI as [provider|].
  - destruct retries as [|n].
    + cbn [attempts snd suspended]. nia.
    + pose proof (attempts_suspended_bounds provider prompt (S n) initialDelay
                    (S n) 0 Hd) as H.
      rewrite Z.pow_0_r in H. apply H; lia.
  - cbn [snd suspended]. nia.
Qed.

Lemma retry_suspension_bounded_witness :
  0 <= suspended (snd (generateContentWithRetry
                         (Some stub_two_transient_then_success) sample_prompt
                         default_retries default_initialDelay))
    <= 3000.
Proof.
  apply (retry_suspension_bounded (Some stub_two_transient_then_success)
           sample_prompt default_retries default_initialDelay).
  unfold default_initialDelay. lia.
Defined.

(** X3. The helper throws only on the final attempt: when a run is
    rejected, every allowed call was made and rejected, and the error
    thrown is that of the call at index [retries - 1]. *)
Theorem retry_throws_only_on_final_attempt (provider : Provider)
    (prompt : Prompt) (retries : nat) (initialDelay : Z) (e : ApiError) :
  fst (generateContentWithRetry (Some provider) prompt retries initialDelay)
  = Rejected e ->
  (0 < retries)%nat /\
  provider prompt (retries - 1)%nat = Rejected e /\
  invocations
    (snd (generateContentWithRetry (Some provider) prompt retries
            initialDelay)) = retries /\
  forall j, (j < retries)%nat -> exists e', provider prompt j = Rejected e'.
Proof.
  unfold generateContentWithRetry. intros Hrej.
  destruct (attempts_rejected_last provider prompt retries initialDelay
              retries 0 e) as (Hlast & Hcount & Hall); [lia | exact Hrej |].
  split.
  - destruct retries; [cbn in Hrej; discriminate | lia].
  - split; [exact Hlast|]. split; [exact Hcount|].
    intros j Hj. apply Hall. lia.
Qed.

Lemma retry_throws_only_on_final_attempt_witness :
  stub_always_fatal sample_prompt 2%nat = Rejected fatal_error /\
  invocations
    (snd (generateContentWithRetry (Some stub_always_fatal) sample_prompt
            default_retries default_initialDelay)) = 3%nat.
Proof.
  destruct (retry_throws_only_on_final_attempt stub_always_fatal sample_prompt
              default_retries default_initialDelay fatal_error)
    as (_ & Hlast & Hcount & _); [reflexivity|].
  split; [exact Hlast | exact Hcount].
Defined.

(** X4. The helper returns the first answer the provider gives within the
    allowed attempts, whatever the errors of the calls before it were,
    after exactly that many calls. *)
Theorem retry_returns_first_answer (provider : Provider) (prompt : Prompt)
    (retries : nat) (initialDelay : Z) (k : nat) (response : GenResponse) :
  (k < retries)%nat ->
  provider prompt k = Resolved response ->
  (forall j, (j < k)%nat -> exists e, provider prompt j = Rejected e) ->
  fst (generateContentWithRetry (Some provider) prompt retries initialDelay)
  = Resolved (EResponse response) /\
  invocations
    (snd (generateContentWithRetry (Some provider) prompt retries
            initialDelay)) = S k.
Proof.
  intros Hk Hans Hbefore. unfold generateContentWithRetry.
  destruct (attempts_first_answer provider prompt retries initialDelay
              retries 0 k response) as [Hres Hcount];
    [lia | lia | exact Hans | intros j Hj; apply Hbefore; lia |].
  split; [exact Hres|]. rewrite Hcount. f_equal. lia.
Qed.

Lemma retry_returns_first_answer_witness :
  fst (generateContentWithRetry (Some stub_fatal_then_success) sample_prompt
         default_retries default_initialDelay)
  = Resolved (EResponse sample_response).
Proof.
  destruct (retry_returns_first_answer stub_fatal_then_success sample_prompt
              default_retries default_initialDelay 1 sample_response)
    as [Hres _].
  - unfold default_retries. lia.
  - reflexivity.
  - intros j Hj. exists fatal_error. destruct j as [|j]; [reflexivity | lia].
  - exact Hres.
Defined.

(** X5. When every call is rejected with a transient error, all [retries]
    calls are made, each but the last is followed by its backoff, so that
    the run is suspended for [initialDelay * (2^(retries-1) - 1)] in all,
    and the error of the last call is thrown. *)
Theorem retry_all_transient_worst_case (provider : Provider) (prompt : Prompt)
    (retries : nat) (initialDelay : Z) :
  (0 < retries)%nat ->
  (forall j, exists e, provider prompt j = Rejected e /\ isTransient e = true) ->
  let run :=
    generateContentWithRetry (Some provider) prompt retries initialDelay in
  exists e,
    provider prompt (retries - 1)%nat = Rejected e /\
    fst run = Rejected e /\
    invocations (snd run) = retries /\
    suspended (snd run) = initialDelay * (2 ^ Z.of_nat (retries - 1) - 1).
Proof.
  intros Hpos Hall run. subst run. unfold generateContentWithRetry.
  destruct (attempts_all_transient provider prompt retries initialDelay
              retries 0) as (e & He & Hres & Hcount & Hsusp);
    [exact Hpos | reflexivity | exact Hall |].
  exists e. rewrite Z.pow_0_r in Hsusp. repeat split; assumption.
Qed.

Lemma retry_all_transient_worst_case_witness :
  suspended
    (snd (generateContentWithRetry (Some stub_always_busy) sample_prompt
            default_retries default_initialDelay)) = 3000.
Proof.
  destruct (retry_all_transient_worst_case stub_always_busy sample_prompt
              default_retries default_initialDelay)
    as (e & _ & _ & _ & Hsusp).
  - unfold default_retries. lia.
  - intros j. exists busy_error. split; reflexivity.
  - exact Hsusp.
Defined.

(** An error counts as transient exactly when its status is 429 or 503 or
    its message holds the text 429 somewhere. *)
Lemma isTransient_iff (e : ApiError) :
  isTransient e = true <->
  err_status e = Some 429 \/ err_status e = Some 503 \/
  exists pre post,
    err_message e = Some (String.append pre (String.append "429" post)).
Proof.
  unfold isTransient, status_is. rewrite !orb_true_iff. split.
  - intros [[H|H]|H].
    + left. destruct (err_status e) as [s|]; [|discriminate].
      apply Z.eqb_eq in H. congruence.
    + right; left. destruct (err_status e) as [s|]; [|discriminate].
      apply Z.eqb_eq in H. congruence.
    + right; right. destruct (err_message e) as [m|]; [|discriminate].
      apply includes_spec in H as (pre & post & ->). exists pre, post.
      reflexivity.
  - intros [H|[H|(pre & post & H)]].
    + left; left. rewrite H. reflexivity.
    + left; right. rewrite H. reflexivity.
    + right. rewrite H. apply includes_spec. exists pre, post. reflexivity.
Qed.

(** X6. An error whose message holds the text 429 somewhere is retried
    with backoff whatever its status is: when the call at an index [i]
    that is not the last is rejected with such an error, the run is
    suspended for [initialDelay * 2^i] right after that call, and the call
    with the next index follows. *)
Theorem message_429_retried_with_backoff (provider : Provider)
    (prompt : Prompt) (retries : nat) (initialDelay : Z) (i : nat)
    (e : ApiError) (pre post : string) :
  (S i < retries)%nat ->
  (forall j, (j < i)%nat -> exists e', provider prompt j = Rejected e') ->
  provider prompt i = Rejected e ->
  err_message e = Some (String.append pre (String.append "429" post)) ->
  let run :=
    generateContentWithRetry (Some provider) prompt retries initialDelay in
  exists before rest,
    invocations before = i /\
    snd run
    = before ++ Invoke i :: Sleep (initialDelay * 2 ^ Z.of_nat i)
               :: Invoke (S i) :: rest /\
    run = after (before ++ [Invoke i; Sleep (initialDelay * 2 ^ Z.of_nat i)])
            (attempts provider prompt retries initialDelay
               (retries - S i) (S i)).
Proof.
  intros Hi Hbefore He Hmessage run. subst run.
  assert (isTransient e = true) as Htransient
    by (apply isTransient_iff; right; right; exists pre, post; exact Hmessage).
  unfold generateContentWithRetry.
  destruct (attempts_reaches provider prompt retries initialDelay i
              retries 0) as (before & Hrun & Hcount);
    [reflexivity | lia | intros j Hj; apply Hbefore; lia |].
  rewrite Hrun. cbn [Nat.add].
  replace (retries - i)%nat with (S (retries - S i)) by lia.
  cbn [attempts]. rewrite He, Htransient. cbn [andb].
  destruct (Z.of_nat i <? Z.of_nat retries - 1) eqn:Hlt;
    [|apply Z.ltb_ge in Hlt; lia].
  destruct (attempts_starts provider prompt retries initialDelay
              (retries - S i) (S i)) as [rest Hrest]; [lia|].
  exists before, rest. split; [exact Hcount|].
  rewrite after_after. split; [|reflexivity].
  cbn [after snd]. rewrite Hrest, <- (assoc_L (++)). reflexivity.
Qed.

Lemma message_429_retried_with_backoff_witness :
  exists before rest,
    invocations before = 0%nat /\
    snd (generateContentWithRetry (Some stub_misread_then_success)
           sample_prompt default_retries default_initialDelay)
    = before ++ Invoke 0 :: Sleep 1000 :: Invoke 1 :: rest.
Proof.
  destruct (message_429_retried_with_backoff stub_misread_then_success
              sample_prompt default_retries default_initialDelay 0
              misread_error "Internal error (request 1" "5)")
    as (before & rest & Hcount & Htrace & _).
  - unfold default_retries. lia.
  - intros j Hj. lia.
  - reflexivity.
  - reflexivity.
  - exists before, rest. split; [exact Hcount | exact Htrace].
Defined.

Example misread_error_is_transient : isTransient misread_error = true.
Proof. reflexivity. Qed.

(** X7. With a client and at least one allowed attempt, a run ends with a
    response of the provider or with a thrown error, never with [null] or
    [undefined]; with [retries = 0] it ends with [undefined] and no call is
    made. *)
Theorem retry_result_kinds (provider : Provider) (prompt : Prompt)
    (retries : nat) (initialDelay : Z) :
  let run :=
    generateContentWithRetry (Some provider) prompt retries initialDelay in
  if decide (retries = 0%nat)
  then run = (Resolved EUndefined, [])
  else (exists response, fst run = Resolved (EResponse response)) \/
       (exists e, fst run = Rejected e).
Proof.
  cbn zeta. unfold generateContentWithRetry.
  destruct (decide (retries = 0%nat)) as [->|Hne]; [reflexivity|].
  destruct (attempts_never_undefined provider prompt retries initialDelay
              retries 0) as [Hundef Hnull]; [lia | reflexivity |].
  destruct (fst (attempts provider prompt retries initialDelay retries 0))
    as [[| |response]|e].
  - congruence.
  - congruence.
  - left. exists response. reflexivity.
  - right. exists e. reflexivity.
Qed.

(** ** More on the POST handler *)

Lemma post_feedback_trace (JSON_parse : string -> option JValue)
    (B : DurableBackend) (genAI : option Provider) (st : Server B)
    (b : ReqBody) (uuid : string) (now : Z) :
  snd (post_feedback JSON_parse B genAI st b uuid now)
  = match b with
    | BodyUndefined => []
    | _ =>
      snd (enrich JSON_parse genAI (get (own_enumerable b) "rating")
             (get (own_enumerable b) "reviewText")
             (get (own_enumerable b) "aiAnalysis"))
    end.
Proof.
  assert (b = BodyUndefined \/ b <> BodyUndefined) as [->|Hb]
    by (destruct b; [left; reflexivity | right; discriminate | right; discriminate]);
    [reflexivity|].
  destruct (useMongo st) eqn:Hmode.
  - rewrite post_feedback_durable by assumption.
    destruct (Feedback_save B _ _) as [[newFeedback c]|msg];
      destruct b; (congruence || reflexivity).
  - rewrite post_feedback_memory by assumption.
    destruct b; (congruence || reflexivity).
Qed.

Lemma enrich_trace (JSON_parse : string -> option JValue)
    (genAI : option Provider) (rating reviewText aiAnalysis : JValue) :
  snd (enrich JSON_parse genAI rating reviewText aiAnalysis)
  = if truthy aiAnalysis then []
    else if prompt_throws rating reviewText then []
    else snd (generateContentWithRetry genAI (mkPrompt rating reviewText)
                default_retries default_initialDelay).
Proof.
  unfold enrich. destruct (truthy aiAnalysis); [reflexivity|].
  destruct (prompt_throws rating reviewText); [reflexivity|].
  destruct (generateContentWithRetry _ _ _ _) as [r tr]. reflexivity.
Qed.

Lemma default_run_bounds (genAI : option Provider) (prompt : Prompt) :
  (invocations
     (snd (generateContentWithRetry genAI prompt default_retries
             default_initialDelay)) <= 3)%nat /\
  0 <= suspended
         (snd (generateContentWithRetry genAI prompt default_retries
                 default_initialDelay)) <= 3000.
Proof.
  unfold generateContentWithRetry. destruct genAI as [provider|].
  - split; [apply attempts_invocations_le|].
    apply (attempts_suspended_bounds provider prompt default_retries
             default_initialDelay default_retries 0);
      unfold default_initialDelay, default_retries; lia.
  - cbn [snd suspended]. rewrite invocations_nil. lia.
Qed.

(** X8. Whatever the body, the state and the provider, one POST request
    calls the provider at most three times and is suspended in backoff for
    at most 3000 ms. *)
Theorem post_feedback_latency_bound (JSON_parse : string -> option JValue)
    (B : DurableBackend) (genAI : option Provider) (st : Server B)
    (b : ReqBody) (uuid : string) (now : Z) :
  let tr := snd (post_feedback JSON_parse B genAI st b uuid now) in
  (invocations tr <= 3)%nat /\ 0 <= suspended tr <= 3000.
Proof.
  cbn zeta. rewrite post_feedback_trace.
  assert ((invocations [] <= 3)%nat /\ 0 <= suspended [] <= 3000) as Hnil
    by (rewrite invocations_nil; cbn [suspended]; lia).
  assert (forall rating reviewText aiAnalysis,
            (invocations (snd (enrich JSON_parse genAI rating reviewText
                                 aiAnalysis)) <= 3)%nat /\
            0 <= suspended (snd (enrich JSON_parse genAI rating reviewText
                                   aiAnalysis)) <= 3000) as Henrich.
  { intros rating reviewText aiAnalysis. rewrite enrich_trace.
    destruct (truthy aiAnalysis); [exact Hnil|].
    destruct (prompt_throws rating reviewText); [exact Hnil|].
    apply default_run_bounds. }
  destruct b; [exact Hnil | apply Henrich | apply Henrich].
Qed.



(** ** The handlers over the test double, backend by backend *)

Lemma post_feedback_stores (JSON_parse : string -> option JValue)
    (genAI : option Provider) (st : Server testDouble) (b : ReqBody)
    (uuid : string) (now : Z) :
  b <> BodyUndefined ->
  let o := own_enumerable b in
  let submission :=
    newSubmission uuid (get o "rating") (get o "reviewText") now
      (fst (enrich JSON_parse genAI (get o "rating") (get o "reviewText")
              (get o "aiAnalysis"))) in
  let st' := snd (fst (post_feedback JSON_parse testDouble genAI st b uuid now)) in
  fst (fst (post_feedback JSON_parse testDouble genAI st b uuid now))
  = mkResponse 201 (JObj submission) /\
  useMongo st' = useMongo st /\
  active_records st' = active_records st ++ [submission] /\
  idle_records st' = idle_records st.
Proof.
  intros Hb o submission st'. subst st'.
  unfold active_records, idle_records.
  destruct (useMongo st) eqn:Hmode.
  - rewrite post_feedback_durable by assumption.
    cbn [Feedback_save testDouble fst snd useMongo collection feedbackMemory].
    repeat split.
  - rewrite post_feedback_memory by assumption.
    cbn [fst snd useMongo collection feedbackMemory]. repeat split.
Qed.

Lemma post_feedback_no_body (JSON_parse : string -> option JValue)
    (genAI : option Provider) (st : Server testDouble)
    (uuid : string) (now : Z) :
  fst (post_feedback JSON_parse testDouble genAI st BodyUndefined uuid now)
  = (mkResponse 400 (message_body destructure_error), st).
Proof. reflexivity. Qed.

Lemma get_feedback_effect (st : Server testDouble) :
  let st' := snd (get_feedback testDouble st) in
  useMongo st' = useMongo st /\
  active_records st'
  = (if useMongo st then active_records st
     else sort_timestamp_desc (active_records st)) /\
  idle_records st' = idle_records st.
Proof.
  destruct st as [m l c]. destruct m; repeat split.
Qed.

Lemma patch_missing (st : Server testDouble) (id : string) (b : ReqBody) :
  findIndex id (active_records st) = None ->
  patch_feedback testDouble st id b
  = (if useMongo st then mkResponse 200 JNull
     else mkResponse 404 (message_body "Not found"), st).
Proof.
  intros Hnone. destruct st as [mongo memory c].
  unfold active_records in Hnone. cbn [useMongo] in *.
  unfold patch_feedback. destruct mongo;
    cbn [useMongo collection feedbackMemory Feedback_findOneAndUpdate testDouble] in *;
    rewrite Hnone; reflexivity.
Qed.

Lemma patch_found_effect (st : Server testDouble) (id : string) (b : ReqBody)
    (index : nat) (prior : Obj) :
  findIndex id (active_records st) = Some index ->
  active_records st !! index = Some prior ->
  let merged := own_enumerable b ∪ prior in
  let st' := snd (patch_feedback testDouble st id b) in
  fst (patch_feedback testDouble st id b) = mkResponse 200 (JObj merged) /\
  useMongo st' = useMongo st /\
  active_records st' = <[index := merged]> (active_records st) /\
  idle_records st' = idle_records st.
Proof.
  intros Hfind Hprior merged st'. subst st'.
  rewrite (patch_found st id b index prior Hfind Hprior). fold merged.
  unfold active_records, idle_records. destruct (useMongo st); repeat split.
Qed.

(** A server is determined by its flag and its two lists of records. *)
Lemma server_eq (st st' : Server testDouble) :
  useMongo st' = useMongo st -> active_records st' = active_records st ->
  idle_records st' = idle_records st -> st' = st.
Proof.
  destruct st as [m l c], st' as [m' l' c'].
  unfold active_records, idle_records. cbn [useMongo feedbackMemory collection].
  intros ->. destruct m; intros -> ->; reflexivity.
Qed.

(** ** How the handlers compose *)

(** X10. A submission made at an instant later than the timestamps of all
    stored records is the first entry of the next listing, in front of the
    previous listing, with either backend. *)
Theorem posted_submission_listed_first (JSON_parse : string -> option JValue)
    (genAI : option Provider) (st : Server testDouble) (b : ReqBody)
    (uuid : string) (now : Z) :
  b <> BodyUndefined ->
  Forall (fun f => has_number_timestamp f = true) (active_records st) ->
  Forall (fun f => timestamp_of f < now) (active_records st) ->
  let posted := fst (post_feedback JSON_parse testDouble genAI st b uuid now) in
  exists submission,
    fst posted = mkResponse 201 (JObj submission) /\
    fst (get_feedback testDouble (snd posted))
    = mkResponse 200
        (JArr (JObj submission
               :: (JObj <$> sort_timestamp_desc (active_records st)))).
Proof.
  intros Hb Hnum Hnew posted. subst posted.
  destruct (post_feedback_stores JSON_parse genAI st b uuid now Hb)
    as (Hresp & _ & Hactive & _).
  eexists. split; [exact Hresp|].
  rewrite get_feedback_lists_sorted, Hactive.
  rewrite sort_timestamp_desc_newest_last; [reflexivity | reflexivity | exact Hnum | exact Hnew].
Qed.

Lemma posted_submission_listed_first_witness :
  fst (get_feedback testDouble
         (snd (fst (post_feedback parse_stub testDouble None
                      (server_with_sample false) (BodyObject sample_body)
                      "u-2" 2000))))
  = mkResponse 200
      (JArr [JObj (newSubmission "u-2" (JNum 5) (JStr "Great service!") 2000
                     (JObj FALLBACK));
             JObj stored_sample]).
Proof.
  destruct (posted_submission_listed_first parse_stub None
              (server_with_sample false) (BodyObject sample_body) "u-2" 2000)
    as (submission & Hresp & Hget).
  - discriminate.
  - repeat constructor.
  - repeat constructor.
  - rewrite Hget. injection Hresp as <-. reflexivity.
Defined.

(** X11. A submission stored under an id that no other record carries is
    found again by a PATCH with that id, which answers with the submission
    merged with the PATCH body. *)
Theorem posted_submission_patchable (JSON_parse : string -> option JValue)
    (genAI : option Provider) (st : Server testDouble) (b fields : ReqBody)
    (uuid : string) (now : Z) :
  b <> BodyUndefined ->
  (forall f, f ∈ active_records st -> get f "id" <> JStr uuid) ->
  let posted := fst (post_feedback JSON_parse testDouble genAI st b uuid now) in
  exists submission,
    fst posted = mkResponse 201 (JObj submission) /\
    fst (patch_feedback testDouble (snd posted) uuid fields)
    = mkResponse 200 (JObj (own_enumerable fields ∪ submission)) /\
    active_records (snd (patch_feedback testDouble (snd posted) uuid fields))
    = active_records st ++ [own_enumerable fields ∪ submission].
Proof.
  intros Hb Hfresh posted. subst posted.
  destruct (post_feedback_stores JSON_parse genAI st b uuid now Hb)
    as (Hresp & _ & Hactive & _).
  eexists. split; [exact Hresp|].
  match type of Hactive with _ = _ ++ [?s] => set (submission := s) in * end.
  assert (findIndex uuid
            (active_records
               (snd (fst (post_feedback JSON_parse testDouble genAI st b uuid
                            now))))
          = Some (length (active_records st))) as Hfind.
  { rewrite Hactive. apply findIndex_pushed; [exact Hfresh | reflexivity]. }
  assert (active_records
            (snd (fst (post_feedback JSON_parse testDouble genAI st b uuid now)))
          !! length (active_records st) = Some submission) as Hlookup.
  { rewrite Hactive. rewrite lookup_app_r by lia.
    rewrite Nat.sub_diag. reflexivity. }
  destruct (patch_found_effect _ uuid fields _ _ Hfind Hlookup)
    as (Hpatch & _ & Hrecords & _).
  split; [exact Hpatch|].
  rewrite Hrecords, Hactive.
  rewrite insert_app_r_alt by lia. rewrite Nat.sub_diag. reflexivity.
Qed.

Lemma posted_submission_patchable_witness :
  fst (patch_feedback testDouble
         (snd (fst (post_feedback parse_stub testDouble None
                      (empty_server false) (BodyObject sample_body)
                      "u-1" 1000)))
         "u-1" (BodyObject helpful_vote))
  = mkResponse 200
      (JObj (helpful_vote ∪ stored_sample)).
Proof.
  destruct (posted_submission_patchable parse_stub None (empty_server false)
              (BodyObject sample_body) (BodyObject helpful_vote) "u-1" 1000)
    as (submission & Hresp & Hpatch & _).
  - discriminate.
  - intros f Hin. apply elem_of_nil in Hin. contradiction.
  - rewrite Hpatch. injection Hresp as <-. reflexivity.
Defined.

(** ** More on GET *)

(** X12. In memory, GET leaves [feedbackMemory] in the order of the listing;
    with the durable backend it changes nothing. In both cases a second GET
    gives the same answer as the first and changes nothing more. *)
Theorem get_feedback_settles (st : Server testDouble) :
  Forall (fun f => has_number_timestamp f = true) (active_records st) ->
  let first := get_feedback testDouble st in
  get_feedback testDouble (snd first) = first /\
  (useMongo st = false ->
   feedbackMemory (snd first) = sort_timestamp_desc (feedbackMemory st)) /\
  (useMongo st = true -> snd first = st).
Proof.
  intros Hnum first. subst first. destruct st as [m l c].
  unfold active_records in Hnum. cbn [useMongo feedbackMemory collection] in Hnum.
  destruct m.
  - split; [reflexivity|]. split; [discriminate | reflexivity].
  - split; [|split; [reflexivity | discriminate]].
    unfold get_feedback. cbn [useMongo feedbackMemory collection snd].
    rewrite sort_timestamp_desc_idempotent by exact Hnum. reflexivity.
Qed.

Lemma get_feedback_settles_witness :
  feedbackMemory server_with_three
  = [stored_sample; newer_sample; same_instant_sample] /\
  feedbackMemory (snd (get_feedback testDouble server_with_three))
  = [newer_sample; stored_sample; same_instant_sample] /\
  get_feedback testDouble (snd (get_feedback testDouble server_with_three))
  = get_feedback testDouble server_with_three.
Proof.
  destruct (get_feedback_settles server_with_three) as (Hsame & Hmem & _).
  - repeat constructor.
  - split; [reflexivity|]. split; [|exact Hsame].
    rewrite Hmem by reflexivity. reflexivity.
Defined.

(** X13. The in-memory listing is stable: the records that carry one and
    the same timestamp are listed in the order in which they are stored. *)
Theorem listing_stable_for_equal_timestamps (B : DurableBackend)
    (st : Server B) (t : Z) :
  useMongo st = false ->
  Forall (fun f => has_number_timestamp f = true) (feedbackMemory st) ->
  exists listed,
    fst (get_feedback B st) = mkResponse 200 (JArr (JObj <$> listed)) /\
    filter (fun f => timestamp_of f = t) listed
    = filter (fun f => timestamp_of f = t) (feedbackMemory st).
Proof.
  intros Hmem Hnum. exists (sort_timestamp_desc (feedbackMemory st)).
  split; [unfold get_feedback; rewrite Hmem; reflexivity|].
  apply sort_timestamp_desc_stable. exact Hnum.
Qed.

Lemma listing_stable_for_equal_timestamps_witness :
  exists listed,
    fst (get_feedback testDouble server_with_three)
    = mkResponse 200 (JArr (JObj <$> listed)) /\
    filter (fun f => timestamp_of f = 1000) listed
    = [stored_sample; same_instant_sample].
Proof.
  destruct (listing_stable_for_equal_timestamps testDouble
              server_with_three 1000)
    as (listed & Hget & Hstable).
  - reflexivity.
  - repeat constructor.
  - exists listed. split; [exact Hget|]. rewrite Hstable. reflexivity.
Defined.

(** ** More on PATCH *)

Lemma findIndex_cases (id : string) (l : list Obj) :
  findIndex id l = None \/
  exists index prior, findIndex id l = Some index /\ l !! index = Some prior /\
    get prior "id" = JStr id.
Proof.
  destruct (findIndex id l) as [index|] eqn:Hfind; [right | left; reflexivity].
  destruct (findIndex_Some id l index Hfind) as (prior & Hprior & Hid & _).
  exists index, prior. repeat split; assumption.
Qed.

(** X14. PATCH never adds or removes a record and never touches the
    backend that is not in use: the records keep their number, and every
    record other than the first one with the given id stays as it is. *)
Theorem patch_changes_at_most_one_record (st : Server testDouble)
    (id : string) (b : ReqBody) :
  let st' := snd (patch_feedback testDouble st id b) in
  useMongo st' = useMongo st /\
  idle_records st' = idle_records st /\
  length (active_records st') = length (active_records st) /\
  forall j, findIndex id (active_records st) <> Some j ->
    active_records st' !! j = active_records st !! j.
Proof.
  cbn zeta.
  destruct (findIndex_cases id (active_records st))
    as [Hnone | (index & prior & Hfind & Hprior & _)].
  - rewrite (patch_missing st id b Hnone). cbn [snd]. repeat split.
  - destruct (patch_found_effect st id b index prior Hfind Hprior)
      as (_ & Hmode & Hactive & Hidle).
    split; [exact Hmode|]. split; [exact Hidle|]. rewrite Hactive.
    split; [apply length_insert|].
    intros j Hj. apply list_lookup_insert_ne. congruence.
Qed.

Lemma patch_changes_at_most_one_record_witness :
  let patched :=
    snd (patch_feedback testDouble server_with_three "u-2"
           (BodyObject helpful_vote)) in
  findIndex "u-2" (active_records server_with_three) = Some 1%nat /\
  length (active_records patched) = 3%nat /\
  active_records patched !! 0%nat = Some stored_sample /\
  active_records patched !! 2%nat = Some same_instant_sample.
Proof.
  intros patched. subst patched.
  destruct (patch_changes_at_most_one_record server_with_three "u-2"
              (BodyObject helpful_vote))
    as (_ & _ & Hlength & Hother).
  split; [reflexivity|]. split; [exact Hlength|]. split.
  - rewrite (Hother 0%nat); [reflexivity|].
    intros Hfind. vm_compute in Hfind. discriminate.
  - rewrite (Hother 2%nat); [reflexivity|].
    intros Hfind. vm_compute in Hfind. discriminate.
Defined.

(** X15. A PATCH whose body does not change the id is idempotent: sent a
    second time, it gets the same answer and leaves the same state. *)
Theorem patch_idempotent (st : Server testDouble) (id : string) (b : ReqBody) :
  own_enumerable b !! "id" = None \/ own_enumerable b !! "id" = Some (JStr id) ->
  let first := patch_feedback testDouble st id b in
  patch_feedback testDouble (snd first) id b = first.
Proof.
  intros Hid first. subst first.
  destruct (findIndex_cases id (active_records st))
    as [Hnone | (index & prior & Hfind & Hprior & Hprior_id)].
  - rewrite (patch_missing st id b Hnone). cbn [snd].
    apply (patch_missing st id b Hnone).
  - set (merged := own_enumerable b ∪ prior).
    destruct (patch_found_effect st id b index prior Hfind Hprior)
      as (Hresp & Hmode & Hactive & Hidle).
    fold merged in Hresp, Hactive.
    assert (get merged "id" = JStr id) as Hmerged_id.
    { unfold get, merged. destruct Hid as [Hid|Hid].
      - rewrite (spread_untouched _ _ _ Hid). exact Hprior_id.
      - rewrite (spread_supplied _ _ _ _ Hid). reflexivity. }
    pose proof (findIndex_lt _ _ _ Hfind) as Hlt.
    set (st1 := snd (patch_feedback testDouble st id b)) in *.
    assert (findIndex id (active_records st1) = Some index) as Hfind1
      by (rewrite Hactive; apply findIndex_replaced; assumption).
    assert (active_records st1 !! index = Some merged) as Hprior1
      by (rewrite Hactive; apply list_lookup_insert_eq; exact Hlt).
    destruct (patch_found_effect st1 id b index merged Hfind1 Hprior1)
      as (Hresp2 & Hmode2 & Hactive2 & Hidle2).
    assert (own_enumerable b ∪ merged = merged) as Hsame.
    { unfold merged. rewrite (assoc_L (∪)), (idemp_L (∪)). reflexivity. }
    rewrite Hsame in Hresp2, Hactive2.
    rewrite (surjective_pairing (patch_feedback testDouble st1 id b)).
    rewrite (surjective_pairing (patch_feedback testDouble st id b)).
    fold st1. rewrite Hresp, Hresp2. f_equal.
    apply server_eq.
    + exact Hmode2.
    + rewrite Hactive2, Hactive. apply list_insert_insert_eq.
    + exact Hidle2.
Qed.

Lemma patch_idempotent_witness :
  patch_feedback testDouble
    (snd (patch_feedback testDouble (server_with_sample false) "u-1"
            (BodyObject helpful_vote)))
    "u-1" (BodyObject helpful_vote)
  = patch_feedback testDouble (server_with_sample false) "u-1"
      (BodyObject helpful_vote).
Proof.
  apply (patch_idempotent (server_with_sample false) "u-1"
           (BodyObject helpful_vote)).
  left. reflexivity.
Defined.

(** X16. A PATCH that supplies no field (an empty object, an empty array
    or no body at all) changes nothing in the state; on an id that exists
    it answers 200 with the stored record. *)
Theorem patch_without_fields_changes_nothing (st : Server testDouble)
    (id : string) (b : ReqBody) :
  own_enumerable b = ∅ ->
  snd (patch_feedback testDouble st id b) = st /\
  forall index prior,
    findIndex id (active_records st) = Some index ->
    active_records st !! index = Some prior ->
    fst (patch_feedback testDouble st id b) = mkResponse 200 (JObj prior).
Proof.
  intros Hempty.
  assert (forall prior : Obj, own_enumerable b ∪ prior = prior) as Hunit
    by (intros prior; rewrite Hempty; apply (left_id_L ∅ (∪))).
  split.
  - destruct (findIndex_cases id (active_records st))
      as [Hnone | (index & prior & Hfind & Hprior & _)].
    + rewrite (patch_missing st id b Hnone). reflexivity.
    + destruct (patch_found_effect st id b index prior Hfind Hprior)
        as (_ & Hmode & Hactive & Hidle).
      apply server_eq; [exact Hmode | | exact Hidle].
      rewrite Hactive, Hunit. apply list_insert_id. exact Hprior.
  - intros index prior Hfind Hprior.
    destruct (patch_found_effect st id b index prior Hfind Hprior)
      as (Hresp & _). rewrite Hresp, Hunit. reflexivity.
Qed.

Lemma patch_without_fields_changes_nothing_witness :
  patch_feedback testDouble (server_with_sample false) "u-1" BodyUndefined
  = (mkResponse 200 (JObj stored_sample), server_with_sample false).
Proof.
  destruct (patch_without_fields_changes_nothing (server_with_sample false)
              "u-1" BodyUndefined) as [Hstate Hresp]; [reflexivity|].
  rewrite (surjective_pairing (patch_feedback _ _ _ _)).
  rewrite Hstate, (Hresp 0%nat stored_sample); reflexivity.
Defined.

(** PATCH answers 200 or 404 and keeps the number of records. *)
Lemma patch_changes_one (st : Server testDouble) (id : string) (b : ReqBody) :
  useMongo (snd (patch_feedback testDouble st id b)) = useMongo st /\
  idle_records (snd (patch_feedback testDouble st id b)) = idle_records st /\
  length (active_records (snd (patch_feedback testDouble st id b)))
  = length (active_records st) /\
  (status (fst (patch_feedback testDouble st id b)) = 200 \/
   status (fst (patch_feedback testDouble st id b)) = 404).
Proof.
  destruct (findIndex_cases id (active_records st))
    as [Hnone | (index & prior & Hfind & Hprior & _)].
  - rewrite (patch_missing st id b Hnone). cbn [fst snd].
    repeat split. destruct (useMongo st); [left | right]; reflexivity.
  - destruct (patch_found_effect st id b index prior Hfind Hprior)
      as (Hresp & Hmode & Hactive & Hidle).
    split; [exact Hmode|]. split; [exact Hidle|]. rewrite Hactive, Hresp.
    split; [apply length_insert | left; reflexivity].
Qed.

(** ** Sequences of requests *)

Lemma created_cons (r : Response) (rs : list Response) :
  created (r :: rs)
  = ((if decide (status r = 201%Z) then 1 else 0) + created rs)%nat.
Proof.
  unfold created. rewrite filter_cons.
  destruct (decide (status r = 201)); reflexivity.
Qed.

(** What one request does to the number of records. *)
Lemma handle_effect (JSON_parse : string -> option JValue)
    (st : Server testDouble) (req : Request) :
  let r := handle JSON_parse st req in
  useMongo (snd r) = useMongo st /\
  idle_records (snd r) = idle_records st /\
  length (active_records (snd r))
  = (length (active_records st)
     + (if decide (status (fst r) = 201%Z) then 1 else 0))%nat.
Proof.
  cbn zeta. destruct req as [|genAI b uuid now|id b]; cbn [handle].
  - destruct (get_feedback_effect st) as (Hmode & Hactive & Hidle).
    split; [exact Hmode|]. split; [exact Hidle|].
    rewrite Hactive, get_feedback_lists_sorted. cbn [status].
    destruct (decide (200 = 201)) as [Heq|_]; [discriminate|].
    destruct (useMongo st); [lia|].
    rewrite sort_timestamp_desc_Permutation. lia.
  - assert (b = BodyUndefined \/ b <> BodyUndefined) as [->|Hb]
      by (destruct b; [left; reflexivity | right; discriminate
                       | right; discriminate]).
    + rewrite post_feedback_no_body. cbn [fst snd status].
      destruct (decide (400 = 201)) as [Heq|_]; [discriminate|].
      repeat split. lia.
    + destruct (post_feedback_stores JSON_parse genAI st b uuid now Hb)
        as (Hresp & Hmode & Hactive & Hidle).
      split; [exact Hmode|]. split; [exact Hidle|].
      rewrite Hactive, Hresp, length_app. cbn [status length].
      destruct (decide (201 = 201)) as [_|Hne]; [reflexivity | congruence].
  - destruct (patch_changes_one st id b) as (Hmode & Hidle & Hlen & Hstatus).
    split; [exact Hmode|]. split; [exact Hidle|]. rewrite Hlen.
    destruct (decide (status (fst (patch_feedback testDouble st id b)) = 201))
      as [Heq|_]; [|lia].
    exfalso. destruct Hstatus as [H|H]; rewrite H in Heq; discriminate.
Qed.

(** X17. No request ever deletes a record or switches the backend: after
    any sequence of requests the backend in use holds as many records as
    before plus one for each response with status 201, and the other
    backend is as it was. *)
Theorem serve_never_deletes (JSON_parse : string -> option JValue)
    (reqs : list Request) (st : Server testDouble) :
  let served := serve JSON_parse st reqs in
  length (fst served) = length reqs /\
  useMongo (snd served) = useMongo st /\
  idle_records (snd served) = idle_records st /\
  length (active_records (snd served))
  = (length (active_records st) + created (fst served))%nat.
Proof.
  cbn zeta. revert st. induction reqs as [|req reqs IH]; intros st.
  - cbn [serve fst snd length]. unfold created. cbn. repeat split. lia.
  - cbn [serve fst snd length].
    destruct (handle_effect JSON_parse st req) as (Hmode & Hidle & Hlen).
    destruct (IH (snd (handle JSON_parse st req)))
      as (Hcount & Hmode' & Hidle' & Hlen').
    split; [f_equal; exact Hcount|].
    split; [rewrite Hmode'; exact Hmode|].
    split; [rewrite Hidle'; exact Hidle|].
    rewrite Hlen', Hlen, created_cons. lia.
Qed.

(** A property of the value stored under one name, which the submissions
    made by POST have, is kept by every request that leaves that name
    alone. *)
Section FieldInvariant.

Variable JSON_parse : string -> option JValue.
Variable k : string.
Variable P : JValue -> bool.
Hypothesis new_submission_has :
  forall uuid rating reviewText now aiAnalysis,
    truthy aiAnalysis = true ->
    P (get (newSubmission uuid rating reviewText now aiAnalysis) k) = true.

Lemma handle_keeps_field (st : Server testDouble) (req : Request) :
  leaves_field k req = true ->
  Forall (fun f => P (get f k) = true) (active_records st) ->
  Forall (fun f => P (get f k) = true)
    (active_records (snd (handle JSON_parse st req))).
Proof.
  intros Hreq Hall. destruct req as [|genAI b uuid now|id b]; cbn [handle].
  - destruct (get_feedback_effect st) as (_ & Hactive & _). rewrite Hactive.
    destruct (useMongo st); [exact Hall|].
    rewrite sort_timestamp_desc_Permutation. exact Hall.
  - assert (b = BodyUndefined \/ b <> BodyUndefined) as [->|Hb]
      by (destruct b; [left; reflexivity | right; discriminate
                       | right; discriminate]).
    + rewrite post_feedback_no_body. exact Hall.
    + destruct (post_feedback_stores JSON_parse genAI st b uuid now Hb)
        as (_ & _ & Hactive & _).
      rewrite Hactive. apply Forall_app. split; [exact Hall|].
      constructor; [|constructor].
      apply new_submission_has. apply enrich_truthy.
  - destruct (findIndex_cases id (active_records st))
      as [Hnone | (index & prior & Hfind & Hprior & _)].
    + rewrite (patch_missing st id b Hnone). exact Hall.
    + destruct (patch_found_effect st id b index prior Hfind Hprior)
        as (_ & _ & Hactive & _).
      rewrite Hactive. apply Forall_insert; [exact Hall|].
      cbn [leaves_field] in Hreq.
      destruct (own_enumerable b !! k) eqn:Hk; [discriminate|].
      unfold get. rewrite (spread_untouched _ _ _ Hk).
      rewrite Forall_forall in Hall.
      apply (Hall prior). apply list_elem_of_lookup. exists index. exact Hprior.
Qed.

Lemma serve_keeps_field (reqs : list Request) (st : Server testDouble) :
  Forall (fun req => leaves_field k req = true) reqs ->
  Forall (fun f => P (get f k) = true) (active_records st) ->
  Forall (fun f => P (get f k) = true)
    (active_records (snd (serve JSON_parse st reqs))).
Proof.
  intros Hreqs. revert st.
  induction Hreqs as [|req reqs Hreq _ IH]; intros st Hall; [exact Hall|].
  cbn [serve snd]. apply IH. apply handle_keeps_field; assumption.
Qed.

End FieldInvariant.

(** X18. As long as no PATCH body supplies a [timestamp], every stored
    record keeps the number timestamp the POST handler gave it, so that
    after any such sequence of requests a listing is in descending order
    of timestamp. *)
Theorem serve_keeps_listing_sorted (JSON_parse : string -> option JValue)
    (reqs : list Request) (st : Server testDouble) :
  Forall (fun req => leaves_field "timestamp" req = true) reqs ->
  Forall (fun f => has_number_timestamp f = true) (active_records st) ->
  let st' := snd (serve JSON_parse st reqs) in
  Forall (fun f => has_number_timestamp f = true) (active_records st') /\
  exists listed,
    fst (get_feedback testDouble st') = mkResponse 200 (JArr (JObj <$> listed)) /\
    listed ≡ₚ active_records st' /\
    StronglySorted newer_or_same listed.
Proof.
  intros Hreqs Hnum st'.
  assert (Forall (fun f => has_number_timestamp f = true) (active_records st'))
    as Hnum'.
  { apply (serve_keeps_field JSON_parse "timestamp" is_number);
      [reflexivity | exact Hreqs | exact Hnum]. }
  split; [exact Hnum'|].
  exists (sort_timestamp_desc (active_records st')).
  split; [apply get_feedback_lists_sorted|].
  split; [apply sort_timestamp_desc_Permutation|].
  apply sort_timestamp_desc_sorted. exact Hnum'.
Qed.

Lemma serve_keeps_listing_sorted_witness :
  Forall (fun f => has_number_timestamp f = true)
    (active_records (snd (serve parse_stub (empty_server false) sample_session))).
Proof.
  destruct (serve_keeps_listing_sorted parse_stub sample_session
              (empty_server false)) as [Hnum _].
  - repeat constructor.
  - constructor.
  - exact Hnum.
Defined.

(** X19. As long as no PATCH body supplies an [aiAnalysis], every stored
    record keeps a truthy, hence non-null, [aiAnalysis]. *)
Theorem serve_keeps_analysis_truthy (JSON_parse : string -> option JValue)
    (reqs : list Request) (st : Server testDouble) :
  Forall (fun req => leaves_field "aiAnalysis" req = true) reqs ->
  Forall (fun f => truthy (get f "aiAnalysis") = true) (active_records st) ->
  Forall (fun f => truthy (get f "aiAnalysis") = true)
    (active_records (snd (serve JSON_parse st reqs))).
Proof.
  intros Hreqs Hall.
  apply (serve_keeps_field JSON_parse "aiAnalysis" truthy);
    [|exact Hreqs | exact Hall].
  intros uuid rating reviewText now aiAnalysis Htruthy. exact Htruthy.
Qed.

Lemma serve_keeps_analysis_truthy_witness :
  Forall (fun f => truthy (get f "aiAnalysis") = true)
    (active_records (snd (serve parse_stub (empty_server true) sample_session))).
Proof.
  apply (serve_keeps_analysis_truthy parse_stub sample_session
           (empty_server true)).
  - repeat constructor.
  - constructor.
Defined.

(** What one request does to the ids. *)
Lemma handle_ids (JSON_parse : string -> option JValue)
    (st : Server testDouble) (req : Request) :
  leaves_field "id" req = true ->
  record_ids (active_records (snd (handle JSON_parse st req)))
  ≡ₚ record_ids (active_records st) ++ (JStr <$> posted_ids [req]).
Proof.
  intros Hreq. unfold record_ids.
  destruct req as [|genAI b uuid now|id b]; cbn [handle].
  - cbn [posted_ids fmap list_fmap]. rewrite app_nil_r.
    destruct (get_feedback_effect st) as (_ & Hactive & _). rewrite Hactive.
    destruct (useMongo st); [reflexivity|].
    rewrite sort_timestamp_desc_Permutation. reflexivity.
  - assert (b = BodyUndefined \/ b <> BodyUndefined) as [->|Hb]
      by (destruct b; [left; reflexivity | right; discriminate
                       | right; discriminate]).
    + rewrite post_feedback_no_body. cbn [posted_ids fmap list_fmap snd].
      rewrite app_nil_r. reflexivity.
    + destruct (post_feedback_stores JSON_parse genAI st b uuid now Hb)
        as (_ & _ & Hactive & _).
      rewrite Hactive, fmap_app.
      destruct b; [congruence | reflexivity | reflexivity].
  - cbn [posted_ids fmap list_fmap]. rewrite app_nil_r.
    destruct (findIndex_cases id (active_records st))
      as [Hnone | (index & prior & Hfind & Hprior & _)].
    + rewrite (patch_missing st id b Hnone). reflexivity.
    + destruct (patch_found_effect st id b index prior Hfind Hprior)
        as (_ & _ & Hactive & _).
      rewrite Hactive, list_fmap_insert.
      cbn [leaves_field] in Hreq.
      destruct (own_enumerable b !! "id") eqn:Hid; [discriminate|].
      unfold get at 1. rewrite (spread_untouched _ _ _ Hid).
      rewrite list_insert_id; [reflexivity|].
      rewrite list_lookup_fmap, Hprior. reflexivity.
Qed.

Lemma posted_ids_cons (req : Request) (reqs : list Request) :
  posted_ids (req :: reqs) = posted_ids [req] ++ posted_ids reqs.
Proof.
  destruct req as [|genAI b uuid now|id b]; [reflexivity| |reflexivity].
  destruct b; reflexivity.
Qed.

Lemma serve_ids (JSON_parse : string -> option JValue)
    (reqs : list Request) (st : Server testDouble) :
  Forall (fun req => leaves_field "id" req = true) reqs ->
  record_ids (active_records (snd (serve JSON_parse st reqs)))
  ≡ₚ record_ids (active_records st) ++ (JStr <$> posted_ids reqs).
Proof.
  intros Hreqs. revert st.
  induction Hreqs as [|req reqs Hreq _ IH]; intros st.
  - cbn [serve snd posted_ids fmap list_fmap]. rewrite app_nil_r. reflexivity.
  - cbn [serve snd]. rewrite IH, (handle_ids JSON_parse st req Hreq).
    rewrite (posted_ids_cons req reqs), fmap_app, (assoc_L (++)). reflexivity.
Qed.

(** X20. As long as no PATCH body supplies an [id], the ids in the store
    are those that were there plus the ids given to the submissions made
    since; so if [uuidv4()] never repeats an id and never returns one that
    is stored already, no two records ever carry the same id. *)
Theorem serve_keeps_ids_unique (JSON_parse : string -> option JValue)
    (reqs : list Request) (st : Server testDouble) :
  Forall (fun req => leaves_field "id" req = true) reqs ->
  NoDup (record_ids (active_records st) ++ (JStr <$> posted_ids reqs)) ->
  let st' := snd (serve JSON_parse st reqs) in
  record_ids (active_records st')
  ≡ₚ record_ids (active_records st) ++ (JStr <$> posted_ids reqs) /\
  NoDup (record_ids (active_records st')).
Proof.
  intros Hreqs Hnodup st'.
  pose proof (serve_ids JSON_parse reqs st Hreqs) as Hids.
  split; [exact Hids|]. subst st'. rewrite Hids. exact Hnodup.
Qed.

Lemma serve_keeps_ids_unique_witness :
  NoDup (record_ids
           (active_records
              (snd (serve parse_stub (empty_server false) sample_session)))).
Proof.
  destruct (serve_keeps_ids_unique parse_stub sample_session
              (empty_server false)) as [_ Hnodup].
  - repeat constructor.
  - apply NoDup_cons. split; [|apply NoDup_singleton].
    intros Hin. apply list_elem_of_singleton in Hin. discriminate.
  - exact Hnodup.
Defined.

(** ** The client *)

Section ClientFacts.

Import Client.

Lemma whole_spec (q : Q) (z : Z) :
  whole q = Some z <-> Qeq q (inject_Z z).
Proof.
  unfold whole, Qeq. cbn [Qnum Qden inject_Z]. rewrite Z.mul_1_r.
  destruct (Qnum q mod Z.pos (Qden q) =? 0)%Z eqn:Hmod.
  - apply Z.eqb_eq in Hmod.
    pose proof (Z_div_exact_full_2 (Qnum q) (Z.pos (Qden q))
                  ltac:(lia) Hmod) as Hexact.
    split.
    + intros [= <-]. lia.
    + intros Heq. f_equal. rewrite Heq. apply Z.div_mul. lia.
  - apply Z.eqb_neq in Hmod. split; [discriminate|].
    intros Heq. exfalso. apply Hmod. rewrite Heq. apply Z.mod_mul. lia.
Qed.

Lemma count_rating_bar (acc : list nat) (s : FeedbackSubmission) :
  count_rating acc s
  = match bar s with
    | Some n => alter S n acc
    | None => acc
    end.
Proof.
  unfold count_rating, bar.
  destruct (Qle_bool (inject_Z 1) (rating s) && Qle_bool (rating s) (inject_Z 5));
    [|reflexivity].
  destruct (whole (rating s)); reflexivity.
Qed.

(** A submission is in the bar of the rating [r] exactly when its rating
    is the number [r]. *)
Lemma bar_spec (s : FeedbackSubmission) (r : Z) :
  (1 <= r <= 5)%Z ->
  bar s = Some (Z.to_nat r) <-> Qeq_bool (rating s) (inject_Z r) = true.
Proof.
  intros Hr. rewrite Qeq_bool_iff. unfold bar. split.
  - destruct (Qle_bool (inject_Z 1) (rating s)) eqn:Hlo; [|discriminate].
    cbn [andb].
    destruct (Qle_bool (rating s) (inject_Z 5)) eqn:Hhi; [|discriminate].
    destruct (whole (rating s)) as [z|] eqn:Hwhole; [|discriminate].
    cbn [fmap option_fmap option_map]. intros [= Hz].
    apply whole_spec in Hwhole.
    apply Qle_bool_iff in Hlo. rewrite Hwhole in Hlo.
    rewrite <- Zle_Qle in Hlo.
    assert (z = r) as -> by lia. exact Hwhole.
  - intros Heq.
    assert (Qle_bool (inject_Z 1) (rating s) = true) as ->
      by (apply Qle_bool_iff; rewrite Heq, <- Zle_Qle; lia).
    assert (Qle_bool (rating s) (inject_Z 5) = true) as ->
      by (apply Qle_bool_iff; rewrite Heq, <- Zle_Qle; lia).
    cbn [andb]. apply whole_spec in Heq. rewrite Heq. reflexivity.
Qed.

(** Every bar is one of the five. *)
Lemma bar_range (s : FeedbackSubmission) (n : nat) :
  bar s = Some n -> (1 <= n <= 5)%nat.
Proof.
  unfold bar.
  destruct (Qle_bool (inject_Z 1) (rating s)) eqn:Hlo; [|discriminate].
  cbn [andb].
  destruct (Qle_bool (rating s) (inject_Z 5)) eqn:Hhi; [|discriminate].
  destruct (whole (rating s)) as [z|] eqn:Hwhole; [|discriminate].
  cbn [fmap option_fmap option_map]. intros [= <-].
  apply whole_spec in Hwhole.
  apply Qle_bool_iff in Hlo. apply Qle_bool_iff in Hhi.
  rewrite Hwhole in Hlo, Hhi. rewrite <- Zle_Qle in Hlo, Hhi. lia.
Qed.

Lemma count_rating_lookup (acc : list nat) (s : FeedbackSubmission) (n : nat) :
  count_rating acc s !! n
  = (fun c => (c + length (filter (fun s => bar s = Some n) [s]))%nat)
    <$> acc !! n.
Proof.
  rewrite count_rating_bar, filter_cons, filter_nil.
  destruct (bar s) as [m|].
  - destruct (decide (m = n)) as [->|Hne].
    + rewrite decide_True by reflexivity. rewrite list_lookup_alter_eq.
      destruct (acc !! n) as [c|]; cbn; [f_equal; lia | reflexivity].
    + rewrite decide_False by congruence.
      rewrite list_lookup_alter_ne by exact Hne.
      destruct (acc !! n) as [c|]; cbn; [f_equal; lia | reflexivity].
  - rewrite decide_False by discriminate.
    destruct (acc !! n) as [c|]; cbn; [f_equal; lia | reflexivity].
Qed.

Lemma ratingsCount_fold (data : list FeedbackSubmission) (acc : list nat)
    (n : nat) :
  fold_left count_rating data acc !! n
  = (fun c => (c + length (filter (fun s => bar s = Some n) data))%nat)
    <$> acc !! n.
Proof.
  revert acc. induction data as [|s data IH]; intros acc.
  - cbn [fold_left]. rewrite filter_nil.
    destruct (acc !! n) as [c|]; cbn; [f_equal; lia | reflexivity].
  - cbn [fold_left]. rewrite IH, count_rating_lookup.
    rewrite (filter_cons _ s data), !filter_cons, filter_nil.
    destruct (acc !! n) as [c|]; [|reflexivity]. cbn [fmap option_fmap option_map].
    f_equal.
    destruct (decide (bar s = Some n)); cbn [length]; lia.
Qed.

Lemma ratingsCount_at (data : list FeedbackSubmission) (r : Z) :
  (1 <= r <= 5)%Z ->
  default 0%nat (ratingsCount data !! Z.to_nat r)
  = length (filter (fun s => Qeq_bool (rating s) (inject_Z r) = true) data).
Proof.
  intros Hr. unfold ratingsCount. rewrite ratingsCount_fold.
  assert (([0; 0; 0; 0; 0; 0]%nat : list nat) !! Z.to_nat r = Some 0%nat) as ->.
  { assert (r = 1 \/ r = 2 \/ r = 3 \/ r = 4 \/ r = 5)%Z as Hcases by lia.
    destruct Hcases as [->|[->|[->|[->| ->]]]]; reflexivity. }
  cbn [fmap option_fmap option_map default from_option Datatypes.id].
  rewrite Nat.add_0_l. f_equal. apply list_filter_iff.
  intros s. apply bar_spec. exact Hr.
Qed.

(** A submission is in one of the five bars exactly when its rating is one
    of the numbers 1 to 5. *)
Lemma in_a_bar (s : FeedbackSubmission) :
  is_Some (bar s) <->
  existsb (fun r => Qeq_bool (rating s) (inject_Z r)) [1; 2; 3; 4; 5]%Z = true.
Proof.
  rewrite existsb_exists. split.
  - intros [n Hn]. pose proof (bar_range s n Hn) as Hrange.
    exists (Z.of_nat n). split.
    + assert (n = 1 \/ n = 2 \/ n = 3 \/ n = 4 \/ n = 5)%nat as Hcases by lia.
      destruct Hcases as [->|[->|[->|[->| ->]]]]; cbn; tauto.
    + apply bar_spec; [lia|]. rewrite Nat2Z.id. exact Hn.
  - intros (r & Hin & Heq). exists (Z.to_nat r). apply bar_spec; [|exact Heq].
    cbn in Hin. lia.
Qed.

Lemma rating_classes (data : list FeedbackSubmission) :
  (length (filter (fun s => bar s = Some 1%nat) data)
   + length (filter (fun s => bar s = Some 2%nat) data)
   + length (filter (fun s => bar s = Some 3%nat) data)
   + length (filter (fun s => bar s = Some 4%nat) data)
   + length (filter (fun s => bar s = Some 5%nat) data))%nat
  = length (filter (fun s => is_Some (bar s)) data).
Proof.
  induction data as [|s data IH]; [reflexivity|].
  rewrite !filter_cons.
  pose proof (bar_range s) as Hrange.
  destruct (bar s) as [n|] eqn:Hbar.
  - specialize (Hrange n eq_refl).
    rewrite (decide_True (P := is_Some (Some n))) by (exists n; reflexivity).
    assert (n = 1 \/ n = 2 \/ n = 3 \/ n = 4 \/ n = 5)%nat as Hcases by lia.
    destruct Hcases as [->|[->|[->|[->| ->]]]];
      repeat case_decide; try congruence; cbn [length]; lia.
  - rewrite (decide_False (P := is_Some None)) by (intros [n Hn]; discriminate).
    repeat case_decide; try congruence; cbn [length]; lia.
Qed.

Lemma count_sentiment_lookup (m : gmap string nat) (s : FeedbackSubmission)
    (k : string) :
  count_sentiment m s !! k
  = (fun c =>
       (c + length (filter (fun s => sentiment (aiAnalysis s) = k) [s]))%nat)
    <$> m !! k.
Proof.
  unfold count_sentiment. rewrite filter_cons, filter_nil.
  destruct (decide (sentiment (aiAnalysis s) = k)) as [Heq|Hne].
  - rewrite Heq.
    destruct (m !! k) as [c|] eqn:Hk; [|rewrite Hk; reflexivity].
    rewrite lookup_alter_eq, Hk. cbn. f_equal. lia.
  - destruct (m !! sentiment (aiAnalysis s)) as [c'|].
    + rewrite lookup_alter_ne by exact Hne.
      destruct (m !! k) as [c|]; cbn; [f_equal; lia | reflexivity].
    + destruct (m !! k) as [c|]; cbn; [f_equal; lia | reflexivity].
Qed.

Lemma sentiments_fold (data : list FeedbackSubmission) (m : gmap string nat)
    (k : string) :
  fold_left count_sentiment data m !! k
  = (fun c =>
       (c + length (filter (fun s => sentiment (aiAnalysis s) = k) data))%nat)
    <$> m !! k.
Proof.
  revert m. induction data as [|s data IH]; intros m.
  - cbn [fold_left]. rewrite filter_nil.
    destruct (m !! k) as [c|]; cbn; [f_equal; lia | reflexivity].
  - cbn [fold_left]. rewrite IH, count_sentiment_lookup.
    rewrite (filter_cons _ s data), !filter_cons, filter_nil.
    destruct (m !! k) as [c|]; [|reflexivity].
    cbn [fmap option_fmap option_map]. f_equal.
    destruct (decide (sentiment (aiAnalysis s) = k)); cbn [length]; lia.
Qed.

Lemma sentiments_at (data : list FeedbackSubmission) (k : string) :
  k = "Positive" \/ k = "Neutral" \/ k = "Negative" ->
  default 0%nat (sentiments data !! k)
  = length (filter (fun s => sentiment (aiAnalysis s) = k) data).
Proof.
  intros Hk. unfold sentiments. rewrite sentiments_fold.
  destruct Hk as [->|[->| ->]]; reflexivity.
Qed.

Lemma sentiment_classes (data : list FeedbackSubmission) :
  (length (filter (fun s => sentiment (aiAnalysis s) = "Positive") data)
   + length (filter (fun s => sentiment (aiAnalysis s) = "Neutral") data)
   + length (filter (fun s => sentiment (aiAnalysis s) = "Negative") data))%nat
  = length (filter
              (fun s => sentiment (aiAnalysis s) = "Positive" \/
                        sentiment (aiAnalysis s) = "Neutral" \/
                        sentiment (aiAnalysis s) = "Negative") data).
Proof.
  induction data as [|s data IH]; [reflexivity|].
  rewrite !filter_cons.
  repeat case_decide; cbn [length]; try lia;
    repeat match goal with
           | H : _ \/ _ |- _ => destruct H
           | H : ¬ (_ \/ _) |- _ => exfalso; apply H; tauto
           end; congruence.
Qed.

Lemma insert_newest_length (x : FeedbackSubmission)
    (l : list FeedbackSubmission) :
  length (insert_newest x l) = S (length l).
Proof.
  induction l as [|y l IH]; cbn [insert_newest]; [reflexivity|].
  destruct (_ <=? _); cbn [length]; [reflexivity | rewrite IH; reflexivity].
Qed.

Lemma newest_first_length (l : list FeedbackSubmission) :
  length (newest_first l) = length l.
Proof.
  induction l as [|x l IH]; cbn [newest_first]; [reflexivity|].
  rewrite insert_newest_length, IH. reflexivity.
Qed.

Lemma insert_newest_Permutation (x : FeedbackSubmission)
    (l : list FeedbackSubmission) :
  insert_newest x l ≡ₚ x :: l.
Proof.
  induction l as [|y l IH]; cbn [insert_newest]; [reflexivity|].
  destruct (_ <=? _); [reflexivity|]. rewrite IH. apply perm_swap.
Qed.

Lemma newest_first_Permutation (l : list FeedbackSubmission) :
  newest_first l ≡ₚ l.
Proof.
  induction l as [|x l IH]; cbn [newest_first]; [reflexivity|].
  rewrite insert_newest_Permutation, IH. reflexivity.
Qed.

Lemma insert_newest_sorted (x : FeedbackSubmission)
    (l : list FeedbackSubmission) :
  StronglySorted (fun a b => timestamp b <= timestamp a) l ->
  StronglySorted (fun a b => timestamp b <= timestamp a) (insert_newest x l).
Proof.
  intros Hsorted. induction l as [|y l IH]; cbn [insert_newest].
  - constructor; constructor.
  - apply StronglySorted_inv in Hsorted as [Hsorted Hfirst].
    destruct (timestamp y - timestamp x <=? 0) eqn:Hcmp.
    + apply Z.leb_le in Hcmp.
      constructor; [constructor; assumption|].
      constructor; [lia|].
      eapply Forall_impl; [exact Hfirst|]. cbn beta. intros z Hz. lia.
    + apply Z.leb_gt in Hcmp.
      constructor; [apply IH; exact Hsorted|].
      rewrite insert_newest_Permutation.
      constructor; [lia | exact Hfirst].
Qed.

Lemma newest_first_sorted (l : list FeedbackSubmission) :
  StronglySorted (fun a b => timestamp b <= timestamp a) (newest_first l).
Proof.
  induction l as [|x l IH]; cbn [newest_first]; [constructor|].
  apply insert_newest_sorted. exact IH.
Qed.

End ClientFacts.

(** X21. There are no statistics for an empty list, and there are for every
    other. The rating chart then has five bars, for the ratings 1 to 5 in
    this order; the bar of a rating counts the submissions whose rating is
    exactly that number. A submission rated otherwise, be it outside 1 to 5
    or in between two of them, such as 4.5, is in no bar although it is
    counted in [totalReviews]: the bars add up to the number of
    submissions whose rating is one of 1, 2, 3, 4, 5. *)
Theorem rating_distribution_counts (data : list Client.FeedbackSubmission) :
  Client.calculateStats [] = None /\
  match Client.calculateStats data with
  | None => data = []
  | Some stats =>
    data <> [] /\
    Client.totalReviews stats = length data /\
    Client.ratingDistribution stats
    = (fun r =>
         (r, length (filter
                       (fun s => Qeq_bool (Client.rating s) (inject_Z r) = true)
                       data)))
        <$> [1; 2; 3; 4; 5]%Z /\
    sum_list (snd <$> Client.ratingDistribution stats)
    = length (filter
                (fun s =>
                   existsb (fun r => Qeq_bool (Client.rating s) (inject_Z r))
                     [1; 2; 3; 4; 5]%Z = true)
                data) /\
    (sum_list (snd <$> Client.ratingDistribution stats)
     <= Client.totalReviews stats)%nat
  end.
Proof.
  split; [reflexivity|].
  assert (Client.ratingData data
          = (fun r =>
               (r, length (filter
                             (fun s =>
                                Qeq_bool (Client.rating s) (inject_Z r) = true)
                             data)))
              <$> [1; 2; 3; 4; 5]%Z) as Hbars.
  { unfold Client.ratingData. cbn [fmap list_fmap].
    rewrite !ratingsCount_at by lia. reflexivity. }
  assert (sum_list (snd <$> Client.ratingData data)
          = length (filter
                      (fun s =>
                         existsb
                           (fun r => Qeq_bool (Client.rating s) (inject_Z r))
                           [1; 2; 3; 4; 5]%Z = true)
                      data)) as Hsum.
  { assert (forall r, (1 <= r <= 5)%Z ->
              length (filter
                        (fun s => Qeq_bool (Client.rating s) (inject_Z r) = true)
                        data)
              = length (filter (fun s => Client.bar s = Some (Z.to_nat r)) data))
      as Hbar.
    { intros r Hr. f_equal. symmetry. apply list_filter_iff.
      intros s. apply bar_spec. exact Hr. }
    rewrite Hbars. cbn [fmap list_fmap snd sum_list sum_list_with id].
    rewrite !Hbar by lia.
    change (Z.to_nat 1) with 1%nat. change (Z.to_nat 2) with 2%nat.
    change (Z.to_nat 3) with 3%nat. change (Z.to_nat 4) with 4%nat.
    change (Z.to_nat 5) with 5%nat.
    rewrite <- (list_filter_iff _ _ data in_a_bar), <- rating_classes. lia. }
  unfold Client.calculateStats. destruct data as [|s data]; [reflexivity|].
  cbn [Client.totalReviews Client.ratingDistribution].
  split; [discriminate|]. split; [reflexivity|].
  split; [exact Hbars|]. split; [exact Hsum|].
  rewrite Hsum. apply length_filter.
Qed.

Lemma rating_distribution_counts_witness :
  Client.ratingDistribution
    <$> Client.calculateStats [sample_submission; half_star_submission]
  = Some [(1, 0%nat); (2, 0%nat); (3, 0%nat); (4, 0%nat); (5, 1%nat)]%Z.
Proof.
  pose proof (rating_distribution_counts
                [sample_submission; half_star_submission]) as [_ Hstats].
  destruct (Client.calculateStats [sample_submission; half_star_submission])
    as [stats|]; [|discriminate].
  destruct Hstats as (_ & _ & Hbars & _).
  cbn [fmap option_fmap option_map]. rewrite Hbars. reflexivity.
Defined.

(** X22. The sentiment chart has the three bars Positive, Neutral and
    Negative; each counts the submissions with exactly that sentiment, and
    a submission with any other sentiment is in no bar: the bars add up to
    the number of submissions whose sentiment is one of the three. *)
Theorem sentiment_distribution_counts (data : list Client.FeedbackSubmission) :
  let count k :=
    length (filter (fun s => Client.sentiment (Client.aiAnalysis s) = k) data) in
  match Client.calculateStats data with
  | None => data = []
  | Some stats =>
    Client.sentimentDistribution stats
    = [ ("Positive", count "Positive", "#22c55e");
        ("Neutral", count "Neutral", "#94a3b8");
        ("Negative", count "Negative", "#ef4444") ] /\
    (count "Positive" + count "Neutral" + count "Negative")%nat
    = length (filter
                (fun s =>
                   Client.sentiment (Client.aiAnalysis s) = "Positive" \/
                   Client.sentiment (Client.aiAnalysis s) = "Neutral" \/
                   Client.sentiment (Client.aiAnalysis s) = "Negative")
                data) /\
    (count "Positive" + count "Neutral" + count "Negative"
     <= Client.totalReviews stats)%nat
  end.
Proof.
  intros count. subst count. cbn beta.
  unfold Client.calculateStats. destruct data as [|s data]; [reflexivity|].
  cbn [Client.totalReviews Client.sentimentDistribution].
  split; [|split].
  - unfold Client.sentimentData.
    rewrite !sentiments_at by tauto. reflexivity.
  - apply sentiment_classes.
  - rewrite sentiment_classes. apply length_filter.
Qed.

(** X23. The ticks of a chart axis are defined exactly when no value
    exceeds 10, and undefined when one does. They are then the integers
    from 0 to the largest of the values, which is one of them, so that
    every value of the chart falls on a tick and the last tick is the value
    of the highest bar; for no value at all there is no tick. *)
Theorem integer_ticks_cover_values (values : list nat) :
  match Client.getIntegerTicks values with
  | Some ticks =>
    Forall (fun v => (v <= 10)%nat) values /\
    Forall (fun v => v ∈ ticks) values /\
    match values with
    | [] => ticks = []
    | _ =>
      exists largest,
        largest ∈ values /\
        Forall (fun v => (v <= largest)%nat) values /\
        ticks = seq 0 (largest + 1)
    end
  | None => Exists (fun v => (10 < v)%nat) values
  end.
Proof.
  unfold Client.getIntegerTicks.
  destruct values as [|v values]; [repeat split; constructor|].
  set (l := v :: values).
  assert (Forall (fun v => (v <= max_list l)%nat) l) as Hle
    by (apply Forall_forall; intros w Hw; apply max_list_elem_of_le; exact Hw).
  assert (max_list l ∈ l) as Hin by (apply max_list_elem_of; discriminate).
  destruct (max_list l <=? 10)%nat eqn:Hmax.
  - apply Nat.leb_le in Hmax.
    split; [eapply Forall_impl; [exact Hle | cbn beta; intros; lia]|].
    split.
    + eapply Forall_impl; [exact Hle|]. cbn beta. intros w Hw.
      apply elem_of_seq. lia.
    + exists (max_list l). split; [exact Hin|]. split; [exact Hle | reflexivity].
  - apply Nat.leb_gt in Hmax. apply Exists_exists.
    exists (max_list l). split; [exact Hin | exact Hmax].
Qed.

(** X24. A load that fails, because the request throws or is answered with
    a status that is not ok, looks like a load of no submission: the
    dashboard is emptied, and the next load that succeeds with at least
    one submission raises the notification of new feedback, whether or not
    anything was submitted in between. *)
Theorem failed_load_then_spurious_notification (d : Client.Dashboard)
    (e : ApiError) (data : list Client.FeedbackSubmission) :
  data <> [] ->
  let failed := Client.fetchData d (Client.FetchFailed e) in
  let refused := Client.fetchData d (Client.FetchAnswered false data) in
  let next := Client.fetchData (fst failed) (Client.FetchAnswered true data) in
  fst failed = Client.mkDashboard [] false 0 /\
  fst refused = Client.mkDashboard [] false 0 /\
  snd next = true /\
  Client.submissions (fst next) = Client.newest_first data.
Proof.
  intros Hdata. cbn zeta. unfold Client.fetchData.
  cbn [Client.getSubmissions Client.newest_first fst snd length
       Client.submissions Client.isFirstLoad Client.prevCountRef].
  repeat split.
  apply bool_decide_eq_true. rewrite newest_first_length.
  destruct data; [congruence | cbn [length]; lia].
Qed.

Lemma failed_load_then_spurious_notification_witness :
  snd (Client.fetchData
         (fst (Client.fetchData (Client.mkDashboard [sample_submission] false 1)
                 (Client.FetchFailed fatal_error)))
         (Client.FetchAnswered true [sample_submission]))
  = true.
Proof.
  destruct (failed_load_then_spurious_notification
              (Client.mkDashboard [sample_submission] false 1) fatal_error
              [sample_submission]) as (_ & _ & Hnotify & _).
  - discriminate.
  - exact Hnotify.
Defined.

(** X25. A vote on a submission that the store holds is recorded and
    shown: the PATCH request sets [helpfulResponse] of the stored record
    to the vote and changes nothing else in it, and the user dashboard
    sets [helpfulStatus] to the vote. *)
Theorem helpful_vote_recorded (st : Server testDouble)
    (data : Client.FeedbackSubmission) (helpfulStatus : option bool)
    (isHelpful : bool) :
  (exists f, f ∈ active_records st /\ get f "id" = JStr (Client.id data)) ->
  let vote := BodyObject {[ "helpfulResponse" := JBool isHelpful ]} in
  Client.handleHelpfulFeedback (patch_over_http st) (Some data) helpfulStatus
    isHelpful = Some isHelpful /\
  exists index prior,
    active_records st !! index = Some prior /\
    get prior "id" = JStr (Client.id data) /\
    active_records (snd (patch_feedback testDouble st (Client.id data) vote))
    = <[index := <[ "helpfulResponse" := JBool isHelpful ]> prior]>
        (active_records st).
Proof.
  intros Hexists vote.
  destruct (findIndex_exists _ _ Hexists) as [index Hfind].
  destruct (findIndex_Some _ _ _ Hfind) as (prior & Hprior & Hid & _).
  destruct (patch_found_effect st (Client.id data) vote index prior Hfind Hprior)
    as (Hresp & _ & Hactive & _).
  split.
  - unfold Client.handleHelpfulFeedback, patch_over_http, Client.over_http.
    fold vote. rewrite Hresp. reflexivity.
  - exists index, prior. split; [exact Hprior|]. split; [exact Hid|].
    rewrite Hactive. subst vote. cbn [own_enumerable].
    rewrite <- insert_union_singleton_l. reflexivity.
Qed.

Lemma helpful_vote_recorded_witness :
  Client.handleHelpfulFeedback (patch_over_http (server_with_sample false))
    (Some sample_submission) None true
  = Some true.
Proof.
  destruct (helpful_vote_recorded (server_with_sample false) sample_submission
              None true) as [Hstatus _].
  - exists stored_sample. split; [|reflexivity].
    apply list_elem_of_singleton. reflexivity.
  - exact Hstatus.
Defined.

(** X26. A vote on a submission that the store does not hold changes
    nothing in the store. In memory the request is answered 404,
    [updateSubmission] throws and [helpfulStatus] stays as it was; with
    the durable backend the request is answered 200 and the user
    dashboard shows the vote as given. *)
Theorem helpful_vote_on_unknown_id (st : Server testDouble)
    (data : Client.FeedbackSubmission) (helpfulStatus : option bool)
    (isHelpful : bool) :
  (forall f, f ∈ active_records st -> get f "id" <> JStr (Client.id data)) ->
  let vote := BodyObject {[ "helpfulResponse" := JBool isHelpful ]} in
  snd (patch_feedback testDouble st (Client.id data) vote) = st /\
  Client.updateSubmission (patch_over_http st (Client.id data) vote)
  = (if useMongo st then Resolved tt
     else Rejected (Client.Error "Failed to update submission")) /\
  Client.handleHelpfulFeedback (patch_over_http st) (Some data) helpfulStatus
    isHelpful
  = (if useMongo st then Some isHelpful else helpfulStatus).
Proof.
  intros Hunknown vote. apply findIndex_None in Hunknown.
  pose proof (patch_missing st (Client.id data) vote Hunknown) as Hpatch.
  split; [rewrite Hpatch; reflexivity|].
  unfold Client.handleHelpfulFeedback, patch_over_http, Client.over_http.
  fold vote. rewrite Hpatch. cbn [fst].
  destruct (useMongo st); split; reflexivity.
Qed.

Lemma helpful_vote_on_unknown_id_witness :
  Client.handleHelpfulFeedback (patch_over_http (empty_server true))
    (Some sample_submission) None true = Some true /\
  Client.handleHelpfulFeedback (patch_over_http (empty_server false))
    (Some sample_submission) None true = None.
Proof.
  split.
  - destruct (helpful_vote_on_unknown_id (empty_server true) sample_submission
                None true) as (_ & _ & Hstatus).
    + intros f Hin. apply elem_of_nil in Hin. contradiction.
    + exact Hstatus.
  - destruct (helpful_vote_on_unknown_id (empty_server false) sample_submission
                None true) as (_ & _ & Hstatus).
    + intros f Hin. apply elem_of_nil in Hin. contradiction.
    + exact Hstatus.
Defined.

(** X27. After a load that succeeds the admin dashboard holds exactly the
    submissions it received, newest first, whatever order they came in,
    and remembers their number for the next load. *)
Theorem successful_load_newest_first (d : Client.Dashboard)
    (data : list Client.FeedbackSubmission) :
  let loaded := fst (Client.fetchData d (Client.FetchAnswered true data)) in
  Client.submissions loaded ≡ₚ data /\
  StronglySorted (fun a b => Client.timestamp b <= Client.timestamp a)
    (Client.submissions loaded) /\
  Client.prevCountRef loaded = length data /\
  Client.isFirstLoad loaded = false.
Proof.
  cbn zeta. unfold Client.fetchData.
  cbn [fst Client.getSubmissions Client.submissions Client.prevCountRef
       Client.isFirstLoad].
  split; [apply newest_first_Permutation|].
  split; [apply newest_first_sorted|].
  split; [apply newest_first_length | reflexivity].
Qed.
